(** * The canary producer service ([internal/services/producer.go])

    A shallow embedding of [ProducerService] and its four methods
    ([newCanaryMessage], [Send], [Refresh], [Close]) together with the
    constructor [NewProducerService].

    The Go code talks to three collaborators that live outside the
    package: the Sarama client and sync producer (interfaces), the wall
    clock ([time.Now]) and the Prometheus metric vectors.  The first two
    are kept abstract: they are type classes over an environment state
    [E], so every statement below holds for every broker behaviour and
    every clock.  The metric vectors are modelled as finite maps from
    label values to values.  Every interaction is also appended to a
    trace, in program order. *)

From Stdlib Require Import ZArith QArith Lia.
From stdpp Require Import base numbers list list_numbers strings pretty gmap.

Local Open Scope Z_scope.

(** ** Go machine integers *)

Module Go.

(** Two's complement reduction of an ideal integer to [bits] bits. *)
Definition wrap (bits z : Z) : Z :=
  (z + 2 ^ (bits - 1)) `mod` 2 ^ bits - 2 ^ (bits - 1).

Definition int32 (z : Z) : Z := wrap 32 z.
Definition int64 (z : Z) : Z := wrap 64 z.

(** [int] is 64 bits wide on the platforms the canary is built for
    (linux/amd64, linux/arm64). *)
Definition int (z : Z) : Z := wrap 64 z.

Definition min_int : Z := - 2 ^ 63.
Definition max_int : Z := 2 ^ 63 - 1.
Definition max_int32 : Z := 2 ^ 31 - 1.

(** Integer division truncates toward zero. *)
Definition div (a b : Z) : Z := a ÷ b.

(** [float64(z)] for an integer [z]: the nearest value with a 53 bit
    significand, ties to even.  The result of converting an integer is
    again an integer, so it is given as one. *)
Definition float64 (z : Z) : Z :=
  let a := Z.abs z in
  let e := Z.log2 a - 52 in
  if e <=? 0 then z
  else
    let q := a `div` 2 ^ e in
    let r := a `mod` 2 ^ e in
    let half := 2 ^ (e - 1) in
    let q' := if (half <? r) || ((r =? half) && Z.odd q) then q + 1 else q in
    Z.sgn z * (q' * 2 ^ e).

(** [strconv.Itoa]: decimal digits, with a leading minus sign. *)
Definition Itoa (i : Z) : string := pretty i.

(** The [error] interface: [None] is [nil], otherwise the message. *)
Definition error : Type := option string.

End Go.

(** ** [internal/config]: the fields of [CanaryConfig] the producer reads

    The bucket bounds are [float64] values in the code; they are kept as
    rationals. *)

Module config.
Record CanaryConfig : Type := {
  Topic : string;
  ClientID : string;
  ProducerLatencyBuckets : list Q
}.
End config.

(** ** JSON documents *)

#[warnings="-register-all"] Inductive JsonValue : Type :=
| JString (s : string)
| JNumber (n : Z)
| JObject (fields : list (string * JsonValue)).

(** ** [CanaryMessage] *)

Record CanaryMessage : Type := {
  ProducerID : string;
  MessageID : Z;
  Timestamp : Z
}.

(** Modelled from the spec: [CanaryMessage.Json] is declared in another
    file of the package.  The payload is the JSON object
    [{"producerId": <string>, "messageId": <integer>, "timestamp":
    <integer>}] with the fields in this order and nothing else. *)
Definition Json (cm : CanaryMessage) : JsonValue :=
  JObject [ ("producerId"%string, JString (ProducerID cm));
            ("messageId"%string, JNumber (MessageID cm));
            ("timestamp"%string, JNumber (Timestamp cm)) ].

(** ** Sarama: messages and the two interfaces the service holds *)

Module sarama.

Record ProducerMessage : Type := {
  Topic : string;
  Value : option JsonValue;
  Partition : Z
}.

(** [sarama.Client].  [NewSyncProducerFromClient] builds the producer on
    top of the client, so both handles act on one environment. *)
Class Client (E : Type) : Type := {
  RefreshMetadata : string -> E -> Go.error * E;
  NewSyncProducerFromClient : E -> Go.error * E
}.

(** [sarama.SyncProducer]: [SendMessage] returns partition, offset and
    error. *)
Class SyncProducer (E : Type) : Type := {
  SendMessage : ProducerMessage -> E -> (Z * Z * Go.error) * E;
  Close : E -> Go.error * E
}.

End sarama.

(** ** The wall clock *)

Module time.
(** [time.Now().UnixNano()]; the reading is taken as an [int64]. *)
Class Clock (E : Type) : Type := {
  UnixNano : E -> Z * E
}.
End time.

(** ** Prometheus vectors, keyed by the label values (clientid, partition) *)

Module prometheus.

Abbreviation Labels := (string * string)%type.

(** A counter vector: the count of every child that exists.
    [With(labels).Inc()] creates the child when it is not there yet. *)
Definition Inc (l : Labels) (c : gmap Labels N) : gmap Labels N :=
  <[ l := (default 0%N (c !! l) + 1)%N ]> c.

(** A histogram vector: its bucket bounds and, for every child, the
    samples observed so far. *)
Record HistogramVec : Type := {
  Buckets : list Q;
  observed : gmap Labels (list Z)
}.

Definition NewHistogramVec (buckets : list Q) : HistogramVec :=
  {| Buckets := buckets; observed := ∅ |}.

Definition Observe (l : Labels) (v : Z) (h : HistogramVec) : HistogramVec :=
  {| Buckets := Buckets h;
     observed := <[ l := default [] (observed h !! l) ++ [v] ]> (observed h) |}.

(** Reading a counter: a child that was never touched counts as 0. *)
Definition value (c : gmap Labels N) (l : Labels) : N :=
  default 0%N (c !! l).

(** The samples a histogram child has seen, oldest first. *)
Definition samples (h : HistogramVec) (l : Labels) : list Z :=
  default [] (observed h !! l).

End prometheus.

(** ** The service *)

Module services.

Import prometheus.

(** The package level metric vectors. *)
Record Metrics : Type := {
  recordsProduced : gmap Labels N;
  recordsProducedFailed : gmap Labels N;
  recordsProducedLatency : HistogramVec
}.

(** [ProducerService].  The [client] and [producer] fields are handles
    on the environment. *)
Record ProducerService : Type := {
  canaryConfig : config.CanaryConfig;
  index : Z
}.

Inductive LogEntry : Type :=
| LogCreateError (err : string)
| LogSending (value : option JsonValue) (partition : Z)
| LogSendError (err : string)
| LogSent (partition offset duration : Z)
| LogRefreshing
| LogRefreshError (err : string)
| LogClosing
| LogCloseError (err : string)
| LogClosed.

Inductive Event : Type :=
| ENow (unixNano : Z)
| ELog (entry : LogEntry)
| ESendMessage (msg : sarama.ProducerMessage) (partition offset : Z)
               (err : Go.error)
| ERefreshMetadata (topic : string) (err : Go.error)
| EClose (err : Go.error).

Section World.

Context {E : Type}.

(** What the methods act on: the service of the process, the metric
    vectors, the environment behind the client, the producer and the
    clock, and the trace of what has happened so far, oldest first. *)
Record World : Type := {
  ps : ProducerService;
  metrics : Metrics;
  env : E;
  trace : list Event
}.

(** How a call ends: it returns, the process exits ([os.Exit]) or it
    panics.  [OutOfFuel] is no behaviour of the program; it marks a loop
    that was cut short by the bound on its turns, which [Send_run] below
    shows never to happen for an [int] argument. *)
Inductive Outcome (A : Type) : Type :=
| Returned (a : A) (w : World)
| Exited (code : Z) (w : World)
| Panicked (err : string) (w : World)
| OutOfFuel.

Definition M (A : Type) : Type := World -> Outcome A.

Definition ret {A} (a : A) : M A := fun w => Returned A a w.

(** Sequencing: anything but a normal return ends the call. *)
Definition bind {A B} (k : A -> M B) (m : M A) : M B :=
  fun w =>
    match m w with
    | Returned _ a w' => k a w'
    | Exited _ c w' => Exited B c w'
    | Panicked _ e w' => Panicked B e w'
    | OutOfFuel _ => OutOfFuel B
    end.

#[export] Instance M_ret : MRet M := @ret.
#[export] Instance M_bind : MBind M := @bind.

Definition get_ps : M ProducerService :=
  fun w => Returned _ (ps w) w.

Definition set_index (i : Z) : M unit :=
  fun w =>
    Returned _ tt
      {| ps := {| canaryConfig := canaryConfig (ps w); index := i |};
         metrics := metrics w; env := env w; trace := trace w |}.

Definition emit (ev : Event) : M unit :=
  fun w =>
    Returned _ tt
      {| ps := ps w; metrics := metrics w; env := env w;
         trace := trace w ++ [ev] |}.

(** [log.Printf] *)
Definition log_Printf (entry : LogEntry) : M unit := emit (ELog entry).

(** Run an operation of a collaborator on the environment. *)
Definition call {A} (op : E -> A * E) : M A :=
  fun w =>
    let '(a, e) := op (env w) in
    Returned _ a
      {| ps := ps w; metrics := metrics w; env := e; trace := trace w |}.

Definition update_metrics (f : Metrics -> Metrics) : M unit :=
  fun w =>
    Returned _ tt
      {| ps := ps w; metrics := f (metrics w); env := env w;
         trace := trace w |}.

(** [os.Exit] and [panic] *)
Definition os_Exit {A} (code : Z) : M A := fun w => Exited A code w.
Definition panic {A} (err : string) : M A := fun w => Panicked A err w.

Context `{!sarama.Client E, !sarama.SyncProducer E, !time.Clock E}.

(** [time.Now().UnixNano()] *)
Definition time_Now_UnixNano : M Z :=
  ns ← call time.UnixNano;
  emit (ENow (Go.int64 ns));;
  ret (Go.int64 ns).

(** [recordsProduced.With(labels).Inc()] and its two siblings *)
Definition recordsProduced_Inc (l : Labels) : M unit :=
  update_metrics (fun m =>
    {| recordsProduced := Inc l (recordsProduced m);
       recordsProducedFailed := recordsProducedFailed m;
       recordsProducedLatency := recordsProducedLatency m |}).

Definition recordsProducedFailed_Inc (l : Labels) : M unit :=
  update_metrics (fun m =>
    {| recordsProduced := recordsProduced m;
       recordsProducedFailed := Inc l (recordsProducedFailed m);
       recordsProducedLatency := recordsProducedLatency m |}).

Definition recordsProducedLatency_Observe (l : Labels) (v : Z) : M unit :=
  update_metrics (fun m =>
    {| recordsProduced := recordsProduced m;
       recordsProducedFailed := recordsProducedFailed m;
       recordsProducedLatency := Observe l v (recordsProducedLatency m) |}).

(** [NewProducerService]: the latency vector is created afresh, the
    sync producer is built from the client, and the new service
    starts with [index] at its zero value. *)
Definition NewProducerService (canaryConfig : config.CanaryConfig)
  : M unit :=
  update_metrics (fun m =>
    {| recordsProduced := recordsProduced m;
       recordsProducedFailed := recordsProducedFailed m;
       recordsProducedLatency :=
         NewHistogramVec (config.ProducerLatencyBuckets canaryConfig) |});;
  err ← call sarama.NewSyncProducerFromClient;
  match err with
  | Some e =>
      log_Printf (LogCreateError e);;
      panic e
  | None =>
      fun w =>
        Returned _ tt
          {| ps := {| canaryConfig := canaryConfig; index := 0 |};
             metrics := metrics w; env := env w; trace := trace w |}
  end.

(** [newCanaryMessage] *)
Definition newCanaryMessage : M CanaryMessage :=
  p ← get_ps;
  set_index (Go.int (index p + 1));;
  ns ← time_Now_UnixNano;
  let timestamp := Go.div ns 1000000 in
  p ← get_ps;
  ret {| ProducerID := config.ClientID (canaryConfig p);
         MessageID := index p;
         Timestamp := timestamp |}.

(** The body of the loop of [Send], for loop variable [i]; [msg] is
    the one [ProducerMessage] the loop reuses. *)
Definition Send_iteration (msg : sarama.ProducerMessage) (i : Z)
  : M sarama.ProducerMessage :=
  cm ← newCanaryMessage;
  let msg :=
    {| sarama.Topic := sarama.Topic msg;
       sarama.Value := Some (Json cm);
       sarama.Partition := Go.int32 i |} in
  log_Printf (LogSending (sarama.Value msg) (sarama.Partition msg));;
  r ← call (sarama.SendMessage msg);
  let '(partition, offset, err) := r in
  emit (ESendMessage msg partition offset err);;
  ns ← time_Now_UnixNano;
  let timestamp := Go.div ns 1000000 in
  p ← get_ps;
  let labels := (config.ClientID (canaryConfig p), Go.Itoa i) in
  recordsProduced_Inc labels;;
  match err with
  | Some e =>
      log_Printf (LogSendError e);;
      recordsProducedFailed_Inc labels;;
      ret msg
  | None =>
      let duration := Go.int64 (timestamp - Timestamp cm) in
      log_Printf (LogSent partition offset duration);;
      recordsProducedLatency_Observe labels (Go.float64 duration);;
      ret msg
  end.

(** [for i := ...; i < numPartitions; i++ { ... }] *)
Fixpoint Send_loop (fuel : nat) (numPartitions : Z)
  (msg : sarama.ProducerMessage) (i : Z) : M unit :=
  if i <? numPartitions then
    match fuel with
    | O => fun _ => OutOfFuel unit
    | S fuel' =>
        msg' ← Send_iteration msg i;
        Send_loop fuel' numPartitions msg' (Go.int (i + 1))
    end
  else ret tt.

(** [Send] *)
Definition Send (numPartitions : Z) : M unit :=
  p ← get_ps;
  let msg :=
    {| sarama.Topic := config.Topic (canaryConfig p);
       sarama.Value := None;
       sarama.Partition := 0 |} in
  Send_loop (Z.to_nat numPartitions) numPartitions msg 0.

(** [Refresh] *)
Definition Refresh : M unit :=
  log_Printf LogRefreshing;;
  p ← get_ps;
  let topic := config.Topic (canaryConfig p) in
  err ← call (sarama.RefreshMetadata topic);
  emit (ERefreshMetadata topic err);;
  match err with
  | Some e => log_Printf (LogRefreshError e)
  | None => ret tt
  end.

(** [Close] *)
Definition Close : M unit :=
  log_Printf LogClosing;;
  err ← call sarama.Close;
  emit (EClose err);;
  match err with
  | Some e =>
      log_Printf (LogCloseError e);;
      os_Exit 1
  | None => log_Printf LogClosed
  end.

End World.

Arguments World E : clear implicits.
Arguments Outcome E A : clear implicits.
Arguments M E A : clear implicits.
Arguments Returned {E A} a w.
Arguments Exited {E A} code w.
Arguments Panicked {E A} err w.
Arguments OutOfFuel {E A}.

End services.

(** ** A scripted environment

    A fake broker client and clock for concrete runs: every call takes
    the next scripted answer; when a script has run out, the clock reads
    0, a send succeeds on the partition the message names at offset 0,
    and refresh, close and producer creation succeed. *)

Module fake.

Record Script : Type := {
  clock : list Z;
  sends : list (Z * Z * Go.error);
  refreshes : list Go.error;
  closes : list Go.error;
  creates : list Go.error
}.

Definition now (s : Script) : Z * Script :=
  (hd 0 (clock s),
   {| clock := tl (clock s); sends := sends s; refreshes := refreshes s;
      closes := closes s; creates := creates s |}).

Definition send (msg : sarama.ProducerMessage) (s : Script)
  : (Z * Z * Go.error) * Script :=
  (hd (sarama.Partition msg, 0, None) (sends s),
   {| clock := clock s; sends := tl (sends s); refreshes := refreshes s;
      closes := closes s; creates := creates s |}).

Definition refresh (topic : string) (s : Script)
  : Go.error * Script :=
  (hd None (refreshes s),
   {| clock := clock s; sends := sends s; refreshes := tl (refreshes s);
      closes := closes s; creates := creates s |}).

Definition close (s : Script) : Go.error * Script :=
  (hd None (closes s),
   {| clock := clock s; sends := sends s; refreshes := refreshes s;
      closes := tl (closes s); creates := creates s |}).

Definition create (s : Script) : Go.error * Script :=
  (hd None (creates s),
   {| clock := clock s; sends := sends s; refreshes := refreshes s;
      closes := closes s; creates := tl (creates s) |}).

#[export] Instance client : sarama.Client Script :=
  {| sarama.RefreshMetadata := refresh;
     sarama.NewSyncProducerFromClient := create |}.

#[export] Instance producer : sarama.SyncProducer Script :=
  {| sarama.SendMessage := send; sarama.Close := close |}.

#[export] Instance wall_clock : time.Clock Script :=
  {| time.UnixNano := now |}.

Definition cfg : config.CanaryConfig :=
  {| config.Topic := "__strimzi_canary";
     config.ClientID := "canary";
     config.ProducerLatencyBuckets :=
       inject_Z <$> [100; 200; 400; 800; 1600] |}.

Definition no_metrics : services.Metrics :=
  {| services.recordsProduced := ∅;
     services.recordsProducedFailed := ∅;
     services.recordsProducedLatency :=
       prometheus.NewHistogramVec (config.ProducerLatencyBuckets cfg) |}.

(** A service that has just been created, facing script [s]. *)
Definition fresh (s : Script) : services.World Script :=
  {| services.ps := {| services.canaryConfig := cfg; services.index := 0 |};
     services.metrics := no_metrics;
     services.env := s;
     services.trace := [] |}.

Definition quiet : Script :=
  {| clock := []; sends := []; refreshes := []; closes := []; creates := [] |}.

(** Three partitions, all sends succeed with offsets 5, 0 and 9, every
    acknowledgement 10 ms after the message was built. *)
Definition all_succeed : Script :=
  {| clock := [1000000000; 1010000000; 2000000000; 2010000000;
               3000000000; 3010000000];
     sends := [(0, 5, None); (1, 0, None); (2, 9, None)];
     refreshes := []; closes := []; creates := [] |}.

(** The send to partition 1 fails, the others succeed. *)
Definition second_fails : Script :=
  {| clock := [1000000000; 1010000000; 2000000000; 2010000000;
               3000000000; 3010000000];
     sends := [(0, 5, None); (1, 0, Some "leader not available"%string);
               (2, 9, None)];
     refreshes := []; closes := []; creates := [] |}.

(** Only the send to partition 0 fails. *)
Definition first_fails : Script :=
  {| clock := [];
     sends := [(0, 0, Some "leader not available"%string)];
     refreshes := []; closes := []; creates := [] |}.

(** A clock that is set back by one second while a send is under way. *)
Definition skewed : Script :=
  {| clock := [5000000000; 4000000000; 6000000000; 6010000000];
     sends := []; refreshes := []; closes := []; creates := [] |}.

(** A producer that closes once and answers a second [Close] with an
    error. *)
Definition closes_once : Script :=
  {| clock := []; sends := []; refreshes := [];
     closes := [None; Some "producer already closed"%string];
     creates := [] |}.

End fake.

#[local] Existing Instances fake.client fake.producer fake.wall_clock.

Import services.

(** ** One turn of the loop, seen from outside

    What one turn of the loop of [Send] lets an observer see: the loop
    variable, the message built, the two clock readings (nanoseconds, at
    construction and right after [SendMessage] returned) and the answer
    of [SendMessage]. *)

Record Attempt : Type := {
  att_i : Z;
  att_cm : CanaryMessage;
  att_created : Z;
  att_partition : Z;
  att_offset : Z;
  att_err : Go.error;
  att_acked : Z
}.

(** The [ProducerMessage] handed to [SendMessage]. *)
Definition att_msg (topic : string) (a : Attempt) : sarama.ProducerMessage :=
  {| sarama.Topic := topic;
     sarama.Value := Some (Json (att_cm a));
     sarama.Partition := Go.int32 (att_i a) |}.

(** The label values of the turn. *)
Definition att_labels (a : Attempt) : prometheus.Labels :=
  (ProducerID (att_cm a), Go.Itoa (att_i a)).

(** [duration := timestamp - cm.Timestamp] *)
Definition att_duration (a : Attempt) : Z :=
  Go.int64 (Go.div (att_acked a) 1000000 - Timestamp (att_cm a)).

(** The trace of the turn, in program order. *)
Definition att_events (topic : string) (a : Attempt) : list Event :=
  [ ENow (att_created a);
    ELog (LogSending (Some (Json (att_cm a))) (Go.int32 (att_i a)));
    ESendMessage (att_msg topic a) (att_partition a) (att_offset a) (att_err a);
    ENow (att_acked a);
    ELog (match att_err a with
          | Some e => LogSendError e
          | None => LogSent (att_partition a) (att_offset a) (att_duration a)
          end) ].

(** The effect of the turn on the metric vectors. *)
Definition att_metrics (a : Attempt) (m : Metrics) : Metrics :=
  {| recordsProduced := prometheus.Inc (att_labels a) (recordsProduced m);
     recordsProducedFailed :=
       match att_err a with
       | Some _ => prometheus.Inc (att_labels a) (recordsProducedFailed m)
       | None => recordsProducedFailed m
       end;
     recordsProducedLatency :=
       match att_err a with
       | Some _ => recordsProducedLatency m
       | None =>
           prometheus.Observe (att_labels a) (Go.float64 (att_duration a))
             (recordsProducedLatency m)
       end |}.

(** The [SendMessage] calls of a trace, oldest first: message and error. *)
Definition sent (evs : list Event) : list (sarama.ProducerMessage * Go.error) :=
  omap (fun ev =>
          match ev with
          | ESendMessage msg _ _ err => Some (msg, err)
          | _ => None
          end) evs.

(** The clock readings of a trace, oldest first. *)
Definition clock_reads (evs : list Event) : list Z :=
  omap (fun ev => match ev with ENow ns => Some ns | _ => None end) evs.

Section Run.

Context {E : Type}.
Context `{!sarama.Client E, !sarama.SyncProducer E, !time.Clock E}.

(** The turn for loop variable [i] started in [w], and the environment
    it leaves. *)
Definition attempt_of (topic : string) (i : Z) (w : World E) : Attempt * E :=
  let '(created, e1) := time.UnixNano (env w) in
  let cm :=
    {| ProducerID := config.ClientID (canaryConfig (ps w));
       MessageID := Go.int (index (ps w) + 1);
       Timestamp := Go.div (Go.int64 created) 1000000 |} in
  let msg :=
    {| sarama.Topic := topic;
       sarama.Value := Some (Json cm);
       sarama.Partition := Go.int32 i |} in
  let '(partition, offset, err, e2) := sarama.SendMessage msg e1 in
  let '(acked, e3) := time.UnixNano e2 in
  ({| att_i := i; att_cm := cm; att_created := Go.int64 created;
      att_partition := partition; att_offset := offset; att_err := err;
      att_acked := Go.int64 acked |}, e3).

Definition after_attempt (topic : string) (i : Z) (w : World E) : World E :=
  let '(a, e) := attempt_of topic i w in
  {| ps := {| canaryConfig := canaryConfig (ps w);
              index := MessageID (att_cm a) |};
     metrics := att_metrics a (metrics w);
     env := e;
     trace := trace w ++ att_events topic a |}.

(** The turns for the loop variables in [l], in order. *)
Fixpoint run (topic : string) (l : list Z) (w : World E)
  : list Attempt * World E :=
  match l with
  | [] => ([], w)
  | i :: l' =>
      let '(ats, w') := run topic l' (after_attempt topic i w) in
      ((attempt_of topic i w).1 :: ats, w')
  end.

(** [k] calls of the message factory in a row, and the messages they
    return, oldest first. *)
Fixpoint newCanaryMessages (k : nat) : M E (list CanaryMessage) :=
  match k with
  | O => mret []
  | S k' =>
      cm ← newCanaryMessage;
      cms ← newCanaryMessages k';
      mret (cm :: cms)
  end.

(** What the scheduler asks of a running service, cycle after cycle:
    a [Send] for some number of partitions, or a [Refresh]. *)
Inductive Step : Type :=
| StepSend (numPartitions : Z)
| StepRefresh.

(** The calls for a list of steps, one after the other. *)
Fixpoint steps (ss : list Step) : M E unit :=
  match ss with
  | [] => mret tt
  | StepSend numPartitions :: ss' => Send numPartitions;; steps ss'
  | StepRefresh :: ss' => Refresh;; steps ss'
  end.

End Run.

(** The number of loop turns the [Send] calls of a list of steps take. *)
Fixpoint turns_of (ss : list Step) : Z :=
  match ss with
  | [] => 0
  | StepSend numPartitions :: ss' => Z.max 0 numPartitions + turns_of ss'
  | StepRefresh :: ss' => turns_of ss'
  end.

(** ** Calls on the environment

    What the environment was asked and what it answered, call by call.
    The trace above is written by the methods themselves; the relation
    below is not: [Calls e cs e'] holds when the calls [cs], made on [e]
    in this order through the interfaces, get the answers recorded in
    them and leave the environment [e'].  A clock reading is recorded as
    the [int64] the caller receives. *)

Inductive Call : Type :=
| CUnixNano (ns : Z)
| CSendMessage (msg : sarama.ProducerMessage) (partition offset : Z)
               (err : Go.error)
| CRefreshMetadata (topic : string) (err : Go.error)
| CClose (err : Go.error)
| CNewSyncProducerFromClient (err : Go.error).

(** The [SendMessage] calls among [cs], oldest first: the message handed
    over and the error answered. *)
Definition sends_of (cs : list Call)
  : list (sarama.ProducerMessage * Go.error) :=
  omap (fun c =>
          match c with
          | CSendMessage msg _ _ err => Some (msg, err)
          | _ => None
          end) cs.

(** The clock readings among [cs], oldest first. *)
Definition reads_of (cs : list Call) : list Z :=
  omap (fun c => match c with CUnixNano ns => Some ns | _ => None end) cs.

Section Calls.

Context {E : Type}.
Context `{!sarama.Client E, !sarama.SyncProducer E, !time.Clock E}.

Inductive Calls : E -> list Call -> E -> Prop :=
| Calls_nil (e : E) : Calls e [] e
| Calls_UnixNano (e e1 e' : E) (ns : Z) (cs : list Call) :
    time.UnixNano e = (ns, e1) ->
    Calls e1 cs e' ->
    Calls e (CUnixNano (Go.int64 ns) :: cs) e'
| Calls_SendMessage (e e1 e' : E) (msg : sarama.ProducerMessage)
    (partition offset : Z) (err : Go.error) (cs : list Call) :
    sarama.SendMessage msg e = (partition, offset, err, e1) ->
    Calls e1 cs e' ->
    Calls e (CSendMessage msg partition offset err :: cs) e'
| Calls_RefreshMetadata (e e1 e' : E) (topic : string) (err : Go.error)
    (cs : list Call) :
    sarama.RefreshMetadata topic e = (err, e1) ->
    Calls e1 cs e' ->
    Calls e (CRefreshMetadata topic err :: cs) e'
| Calls_Close (e e1 e' : E) (err : Go.error) (cs : list Call) :
    sarama.Close e = (err, e1) ->
    Calls e1 cs e' ->
    Calls e (CClose err :: cs) e'
| Calls_NewSyncProducerFromClient (e e1 e' : E) (err : Go.error)
    (cs : list Call) :
    sarama.NewSyncProducerFromClient e = (err, e1) ->
    Calls e1 cs e' ->
    Calls e (CNewSyncProducerFromClient err :: cs) e'.

End Calls.

(** The calls of one turn of the loop of [Send]: the clock, the send,
    the clock. *)
Definition att_calls (topic : string) (a : Attempt) : list Call :=
  [ CUnixNano (att_created a);
    CSendMessage (att_msg topic a) (att_partition a) (att_offset a)
                 (att_err a);
    CUnixNano (att_acked a) ].

(** ** An environment that keeps a journal

    Any environment with a journal beside it: every call is passed on
    to the environment and entered, with its answer, into the journal.
    The journal is kept by the environment, out of reach of the
    service. *)

Module journal.

Record Journal (E : Type) : Type := {
  inner : E;
  calls : list Call
}.

Arguments inner {E} _.
Arguments calls {E} _.

Section Instances.

Context {E : Type}.
Context `{!sarama.Client E, !sarama.SyncProducer E, !time.Clock E}.

Definition enter {A} (entry : A -> Call) (op : E -> A * E) (j : Journal E)
  : A * Journal E :=
  let '(a, e) := op (inner j) in
  (a, {| inner := e; calls := calls j ++ [entry a] |}).

#[export] Instance client : sarama.Client (Journal E) :=
  {| sarama.RefreshMetadata := fun topic =>
       enter (CRefreshMetadata topic) (sarama.RefreshMetadata topic);
     sarama.NewSyncProducerFromClient :=
       enter CNewSyncProducerFromClient sarama.NewSyncProducerFromClient |}.

#[export] Instance producer : sarama.SyncProducer (Journal E) :=
  {| sarama.SendMessage := fun msg =>
       enter (fun '(partition, offset, err) =>
                CSendMessage msg partition offset err)
             (sarama.SendMessage msg);
     sarama.Close := enter CClose sarama.Close |}.

#[export] Instance wall_clock : time.Clock (Journal E) :=
  {| time.UnixNano :=
       enter (fun ns => CUnixNano (Go.int64 ns)) time.UnixNano |}.

End Instances.

(** A service that has just been created, facing script [s] behind an
    empty journal. *)
Definition fresh (s : fake.Script) : World (Journal fake.Script) :=
  {| ps := ps (fake.fresh s);
     metrics := metrics (fake.fresh s);
     env := {| inner := s; calls := [] |};
     trace := [] |}.

End journal.

#[local] Existing Instances journal.client journal.producer journal.wall_clock.

(** * Properties *)

(** ** Machine arithmetic *)

Lemma pow2_63 : 2 ^ 63 = 9223372036854775808.
Proof. reflexivity. Qed.

Lemma pow2_31 : 2 ^ 31 = 2147483648.
Proof. reflexivity. Qed.

Lemma wrap_small (bits z : Z) :
  0 < bits -> - 2 ^ (bits - 1) <= z < 2 ^ (bits - 1) -> Go.wrap bits z = z.
Proof.
  intros Hb Hz. unfold Go.wrap.
  assert (Hp : 2 ^ bits = 2 * 2 ^ (bits - 1)).
  { rewrite <- Z.pow_succ_r by lia. f_equal. lia. }
  rewrite Z.mod_small by lia. lia.
Qed.

Lemma wrap_range (bits z : Z) :
  0 < bits -> - 2 ^ (bits - 1) <= Go.wrap bits z < 2 ^ (bits - 1).
Proof.
  intros Hb. unfold Go.wrap.
  assert (Hp : 2 ^ bits = 2 * 2 ^ (bits - 1)).
  { rewrite <- Z.pow_succ_r by lia. f_equal. lia. }
  assert (0 < 2 ^ (bits - 1)) by (apply Z.pow_pos_nonneg; lia).
  pose proof (Z.mod_pos_bound (z + 2 ^ (bits - 1)) (2 ^ bits)). lia.
Qed.

Lemma int_small (z : Z) : Go.min_int <= z <= Go.max_int -> Go.int z = z.
Proof.
  unfold Go.min_int, Go.max_int, Go.int. intros Hz.
  apply wrap_small; [lia|]. change (64 - 1) with 63. lia.
Qed.

Lemma int64_small (z : Z) : Go.min_int <= z <= Go.max_int -> Go.int64 z = z.
Proof. apply int_small. Qed.

Lemma int64_range (z : Z) : Go.min_int <= Go.int64 z <= Go.max_int.
Proof.
  unfold Go.min_int, Go.max_int, Go.int64.
  pose proof (wrap_range 64 z). change (64 - 1) with 63 in *. lia.
Qed.

Lemma int32_small (z : Z) : - 2 ^ 31 <= z <= Go.max_int32 -> Go.int32 z = z.
Proof.
  unfold Go.max_int32, Go.int32. intros Hz.
  apply wrap_small; [lia|]. change (32 - 1) with 31. lia.
Qed.

Lemma int32_range (z : Z) : - 2 ^ 31 <= Go.int32 z <= Go.max_int32.
Proof.
  unfold Go.max_int32, Go.int32.
  pose proof (wrap_range 32 z). change (32 - 1) with 31 in *. lia.
Qed.

(** Integers below 2^53 in magnitude are their own [float64]. *)
Lemma float64_exact (z : Z) : Z.abs z < 2 ^ 53 -> Go.float64 z = z.
Proof.
  intros Hz. unfold Go.float64.
  destruct (Z.leb_spec (Z.log2 (Z.abs z) - 52) 0) as [_|Hl]; [done|].
  exfalso.
  destruct (Z.eq_dec (Z.abs z) 0) as [H0|H0].
  - rewrite H0 in Hl. simpl in Hl. lia.
  - assert (Z.log2 (Z.abs z) < 53); [|lia].
    apply Z.log2_lt_pow2; lia.
Qed.

(** Milliseconds of an [int64] nanosecond reading. *)
Lemma millis_range (ns : Z) :
  Go.min_int <= ns <= Go.max_int ->
  - 9223372036854 <= Go.div ns 1000000 <= 9223372036854.
Proof.
  unfold Go.min_int, Go.max_int, Go.div. rewrite pow2_63. intros Hns.
  pose proof (Z.quot_rem' ns 1000000) as Hq.
  destruct (Z_le_gt_dec 0 ns) as [Hs|Hs].
  - pose proof (Z.rem_bound_pos ns 1000000). lia.
  - pose proof (Z.rem_bound_pos (- ns) 1000000) as Hr.
    rewrite Z.rem_opp_l' in Hr. lia.
Qed.

(** The latency of a turn is the plain difference of its two millisecond
    stamps: neither the [int64] subtraction nor the conversion to
    [float64] changes it. *)
Lemma latency_exact (created acked : Z) :
  Go.min_int <= created <= Go.max_int ->
  Go.min_int <= acked <= Go.max_int ->
  Go.float64 (Go.int64 (Go.div acked 1000000 - Go.div created 1000000))
  = Go.div acked 1000000 - Go.div created 1000000.
Proof.
  intros Hc Ha.
  pose proof (millis_range created Hc). pose proof (millis_range acked Ha).
  rewrite int64_small by (unfold Go.min_int, Go.max_int; rewrite pow2_63; lia).
  apply float64_exact. change (2 ^ 53) with 9007199254740992. lia.
Qed.

(** Wrapping commutes with addition. *)
Lemma int_add_wrap (a b : Z) : Go.int (Go.int a + b) = Go.int (a + b).
Proof.
  unfold Go.int, Go.wrap. f_equal.
  replace ((a + 2 ^ (64 - 1)) `mod` 2 ^ 64 - 2 ^ (64 - 1) + b + 2 ^ (64 - 1))
    with ((a + 2 ^ (64 - 1)) `mod` 2 ^ 64 + b) by lia.
  rewrite Zplus_mod_idemp_l. f_equal. lia.
Qed.

Lemma Itoa_inj (i j : Z) : Go.Itoa i = Go.Itoa j -> i = j.
Proof. unfold Go.Itoa. apply (inj pretty). Qed.

(** ** The methods, step by step *)

Ltac run_M :=
  unfold mbind, mret, M_bind, M_ret, bind, ret, call, emit, log_Printf,
    get_ps, set_index, update_metrics, os_Exit, panic; simpl.

Section Facts.

Context {E : Type}.
Context `{!sarama.Client E, !sarama.SyncProducer E, !time.Clock E}.

Implicit Types (w : World E) (i n : Z) (topic : string).

(** [newCanaryMessage] always returns; it advances [index] by one
    (wrapping as an [int]), reads the clock once, and touches nothing
    else. *)
Lemma newCanaryMessage_spec w :
  newCanaryMessage w =
  Returned
    {| ProducerID := config.ClientID (canaryConfig (ps w));
       MessageID := Go.int (index (ps w) + 1);
       Timestamp := Go.div (Go.int64 (time.UnixNano (env w)).1) 1000000 |}
    {| ps := {| canaryConfig := canaryConfig (ps w);
                index := Go.int (index (ps w) + 1) |};
       metrics := metrics w;
       env := (time.UnixNano (env w)).2;
       trace := trace w ++ [ENow (Go.int64 (time.UnixNano (env w)).1)] |}.
Proof.
  unfold newCanaryMessage, time_Now_UnixNano. run_M.
  destruct (time.UnixNano (env w)) as [ns e]. reflexivity.
Qed.

Lemma Send_iteration_spec (msg : sarama.ProducerMessage) i w :
  Send_iteration msg i w =
  Returned (att_msg (sarama.Topic msg) (attempt_of (sarama.Topic msg) i w).1)
           (after_attempt (sarama.Topic msg) i w).
Proof.
  unfold Send_iteration, newCanaryMessage, time_Now_UnixNano,
    recordsProduced_Inc, recordsProducedFailed_Inc,
    recordsProducedLatency_Observe, after_attempt, attempt_of.
  run_M.
  destruct (time.UnixNano (env w)) as [created e1]; simpl.
  destruct (sarama.SendMessage _ e1) as [[[partition offset] err] e2]; simpl.
  destruct (time.UnixNano e2) as [acked e3]; simpl.
  destruct err as [e|]; simpl; rewrite <- !app_assoc; reflexivity.
Qed.

(** *** The loop of [Send] *)

Lemma run_cons topic i (l : list Z) w :
  run topic (i :: l) w =
  ((attempt_of topic i w).1 :: (run topic l (after_attempt topic i w)).1,
   (run topic l (after_attempt topic i w)).2).
Proof. simpl. destruct (run topic l (after_attempt topic i w)). done. Qed.

(** With [numPartitions] an [int] and enough fuel, the loop started at
    [i] returns, having taken the turns [i], [i+1], ... below
    [numPartitions]. *)
Lemma Send_loop_run (fuel : nat) n (msg : sarama.ProducerMessage) i w :
  0 <= i ->
  n <= Go.max_int ->
  (Z.to_nat (n - i) <= fuel)%nat ->
  Send_loop fuel n msg i w =
  Returned tt (run (sarama.Topic msg) (seqZ i (n - i)) w).2.
Proof.
  revert msg i w. induction fuel as [|fuel IH]; intros msg i w Hi Hn Hfuel.
  - simpl. destruct (Z.ltb_spec i n) as [Hlt|Hge]; [lia|].
    rewrite seqZ_nil by lia. reflexivity.
  - simpl. destruct (Z.ltb_spec i n) as [Hlt|Hge].
    + unfold mbind, M_bind, bind. rewrite Send_iteration_spec.
      rewrite int_small by (unfold Go.min_int, Go.max_int in *; lia).
      rewrite IH by (simpl; lia). simpl sarama.Topic.
      rewrite (seqZ_cons i (n - i)) by lia.
      rewrite run_cons. simpl.
      replace (Z.pred (n - i)) with (n - (i + 1)) by lia.
      replace (Z.succ i) with (i + 1) by lia. reflexivity.
    + rewrite seqZ_nil by lia. reflexivity.
Qed.

(** [Send] returns for every [int] argument. *)
Lemma Send_run n w :
  n <= Go.max_int ->
  Send n w =
  Returned tt (run (config.Topic (canaryConfig (ps w))) (seqZ 0 n) w).2.
Proof.
  intros Hn. unfold Send. run_M.
  rewrite Send_loop_run by (simpl; lia). simpl.
  by replace (n - 0) with n by lia.
Qed.

(** *** What a run of turns leaves behind *)

Lemma run_length topic (l : list Z) w :
  length (run topic l w).1 = length l.
Proof.
  revert w. induction l as [|i l IH]; intros w; [done|].
  rewrite run_cons. simpl. by rewrite IH.
Qed.

Lemma run_att_i topic (l : list Z) w : att_i <$> (run topic l w).1 = l.
Proof.
  revert w. induction l as [|i l IH]; intros w; [done|].
  rewrite run_cons. simpl. rewrite IH. f_equal.
  unfold attempt_of.
  destruct (time.UnixNano (env w)) as [created e1].
  destruct (sarama.SendMessage _ e1) as [[[partition offset] err] e2].
  by destruct (time.UnixNano e2).
Qed.

Lemma after_attempt_config topic i w :
  canaryConfig (ps (after_attempt topic i w)) = canaryConfig (ps w).
Proof. unfold after_attempt. by destruct (attempt_of topic i w). Qed.

Lemma attempt_of_cm topic i w :
  att_cm (attempt_of topic i w).1 =
  {| ProducerID := config.ClientID (canaryConfig (ps w));
     MessageID := Go.int (index (ps w) + 1);
     Timestamp := Go.div (att_created (attempt_of topic i w).1) 1000000 |}.
Proof.
  unfold attempt_of.
  destruct (time.UnixNano (env w)) as [created e1].
  destruct (sarama.SendMessage _ e1) as [[[partition offset] err] e2].
  by destruct (time.UnixNano e2).
Qed.

Lemma attempt_of_clock topic i w :
  (Go.min_int <= att_created (attempt_of topic i w).1 <= Go.max_int) /\
  (Go.min_int <= att_acked (attempt_of topic i w).1 <= Go.max_int).
Proof.
  unfold attempt_of.
  destruct (time.UnixNano (env w)) as [created e1].
  destruct (sarama.SendMessage _ e1) as [[[partition offset] err] e2].
  destruct (time.UnixNano e2). simpl. split; apply int64_range.
Qed.

Lemma after_attempt_index topic i w :
  index (ps (after_attempt topic i w)) = Go.int (index (ps w) + 1).
Proof.
  pose proof (attempt_of_cm topic i w) as Hcm.
  unfold after_attempt. destruct (attempt_of topic i w) as [a e].
  simpl in *. by rewrite Hcm.
Qed.

Lemma after_attempt_trace topic i w :
  trace (after_attempt topic i w) =
  trace w ++ att_events topic (attempt_of topic i w).1.
Proof. unfold after_attempt. by destruct (attempt_of topic i w). Qed.

Lemma after_attempt_metrics topic i w :
  metrics (after_attempt topic i w) =
  att_metrics (attempt_of topic i w).1 (metrics w).
Proof. unfold after_attempt. by destruct (attempt_of topic i w). Qed.

Lemma run_config topic (l : list Z) w :
  canaryConfig (ps (run topic l w).2) = canaryConfig (ps w).
Proof.
  revert w. induction l as [|i l IH]; intros w; [done|].
  rewrite run_cons. simpl. by rewrite IH, after_attempt_config.
Qed.

Lemma run_trace topic (l : list Z) w :
  trace (run topic l w).2 =
  trace w ++ concat (att_events topic <$> (run topic l w).1).
Proof.
  revert w. induction l as [|i l IH]; intros w.
  - simpl. by rewrite app_nil_r.
  - rewrite run_cons. cbn [fst snd fmap list_fmap concat].
    rewrite IH, after_attempt_trace. by rewrite <- app_assoc.
Qed.

Lemma run_metrics topic (l : list Z) w :
  metrics (run topic l w).2 =
  foldl (fun m a => att_metrics a m) (metrics w) (run topic l w).1.
Proof.
  revert w. induction l as [|i l IH]; intros w; [done|].
  rewrite run_cons. cbn [fst snd foldl].
  by rewrite IH, after_attempt_metrics.
Qed.

(** The [k]-th turn of a run: which loop variable it serves and in
    which state it starts. *)
Lemma run_lookup topic (l : list Z) w (k : nat) (a : Attempt) :
  (run topic l w).1 !! k = Some a ->
  exists i wk,
    l !! k = Some i /\
    a = (attempt_of topic i wk).1 /\
    canaryConfig (ps wk) = canaryConfig (ps w) /\
    Go.int (index (ps wk)) = Go.int (index (ps w) + Z.of_nat k).
Proof.
  revert w k. induction l as [|i l IH]; intros w k Hk; [done|].
  rewrite run_cons in Hk. destruct k as [|k]; simpl in Hk.
  - exists i, w. repeat split; [congruence|]. f_equal. lia.
  - destruct (IH _ _ Hk) as (j & wk & Hj & Ha & Hcfg & Hidx).
    exists j, wk. repeat split; [done..| |].
    + by rewrite Hcfg, after_attempt_config.
    + rewrite Hidx, after_attempt_index, int_add_wrap. f_equal. lia.
Qed.

Lemma run_index topic (l : list Z) w :
  Go.int (index (ps (run topic l w).2)) =
  Go.int (index (ps w) + Z.of_nat (length l)).
Proof.
  revert w. induction l as [|i l IH]; intros w.
  - simpl. f_equal. lia.
  - rewrite run_cons. cbn [snd]. rewrite IH, after_attempt_index.
    rewrite int_add_wrap. f_equal. simpl length. lia.
Qed.

(** The message of the [k]-th turn. *)
Lemma run_message topic (l : list Z) w (k : nat) (a : Attempt) :
  (run topic l w).1 !! k = Some a ->
  att_cm a =
  {| ProducerID := config.ClientID (canaryConfig (ps w));
     MessageID := Go.int (index (ps w) + Z.of_nat k + 1);
     Timestamp := Go.div (att_created a) 1000000 |}.
Proof.
  intros Hk. destruct (run_lookup _ _ _ _ _ Hk) as (i & wk & _ & -> & Hcfg & Hidx).
  rewrite attempt_of_cm, Hcfg. f_equal.
  by rewrite <- int_add_wrap, Hidx, int_add_wrap.
Qed.

Lemma run_clock topic (l : list Z) w (k : nat) (a : Attempt) :
  (run topic l w).1 !! k = Some a ->
  (Go.min_int <= att_created a <= Go.max_int) /\
  (Go.min_int <= att_acked a <= Go.max_int).
Proof.
  intros Hk. destruct (run_lookup _ _ _ _ _ Hk) as (i & wk & _ & -> & _).
  apply attempt_of_clock.
Qed.

Lemma run_labels topic (l : list Z) w :
  att_labels <$> (run topic l w).1 =
  (fun i => (config.ClientID (canaryConfig (ps w)), Go.Itoa i)) <$> l.
Proof.
  apply list_eq. intros k. rewrite !list_lookup_fmap.
  destruct ((run topic l w).1 !! k) as [a|] eqn:Hk; simpl.
  - pose proof (run_message _ _ _ _ _ Hk) as Hcm.
    pose proof (run_att_i topic l w) as Hi.
    apply (f_equal (fun x => x !! k)) in Hi.
    rewrite list_lookup_fmap, Hk in Hi. simpl in Hi. rewrite <- Hi. simpl.
    unfold att_labels. by rewrite Hcm.
  - apply lookup_ge_None in Hk. rewrite run_length in Hk.
    apply lookup_ge_None in Hk. by rewrite Hk.
Qed.

End Facts.

(** ** Traces and metric vectors of a list of turns *)

Lemma sent_app (evs1 evs2 : list Event) :
  sent (evs1 ++ evs2) = sent evs1 ++ sent evs2.
Proof. apply omap_app. Qed.

Lemma sent_turns (topic : string) (ats : list Attempt) :
  sent (concat (att_events topic <$> ats)) =
  (fun a => (att_msg topic a, att_err a)) <$> ats.
Proof.
  induction ats as [|a ats IH]; [done|].
  cbn [fmap list_fmap concat]. rewrite sent_app. f_equal. apply IH.
Qed.

Section Vectors.

Import prometheus.

Implicit Types (l : Labels) (c : gmap Labels N) (h : HistogramVec).

Lemma value_Inc_eq l c : value (Inc l c) l = (value c l + 1)%N.
Proof. unfold value, Inc. by rewrite lookup_insert_eq. Qed.

Lemma value_Inc_ne l l' c : l <> l' -> value (Inc l c) l' = value c l'.
Proof. intros Hne. unfold value, Inc. by rewrite lookup_insert_ne. Qed.

Lemma samples_Observe_eq l v h :
  samples (Observe l v h) l = samples h l ++ [v].
Proof. unfold samples, Observe. simpl. by rewrite lookup_insert_eq. Qed.

Lemma samples_Observe_ne l l' v h :
  l <> l' -> samples (Observe l v h) l' = samples h l'.
Proof.
  intros Hne. unfold samples, Observe. simpl. by rewrite lookup_insert_ne.
Qed.

(** One turn changes the three vectors at its own labels only. *)
Lemma att_metrics_miss (a : Attempt) (m : Metrics) l :
  att_labels a <> l ->
  value (recordsProduced (att_metrics a m)) l = value (recordsProduced m) l /\
  value (recordsProducedFailed (att_metrics a m)) l
    = value (recordsProducedFailed m) l /\
  samples (recordsProducedLatency (att_metrics a m)) l
    = samples (recordsProducedLatency m) l.
Proof.
  intros Hne. unfold att_metrics. simpl.
  rewrite value_Inc_ne by done.
  destruct (att_err a); rewrite ?value_Inc_ne, ?samples_Observe_ne by done;
    done.
Qed.

Lemma att_metrics_hit (a : Attempt) (m : Metrics) :
  value (recordsProduced (att_metrics a m)) (att_labels a)
    = (value (recordsProduced m) (att_labels a) + 1)%N /\
  value (recordsProducedFailed (att_metrics a m)) (att_labels a)
    = (value (recordsProducedFailed m) (att_labels a)
       + match att_err a with Some _ => 1 | None => 0 end)%N /\
  samples (recordsProducedLatency (att_metrics a m)) (att_labels a)
    = samples (recordsProducedLatency m) (att_labels a)
      ++ match att_err a with
         | Some _ => []
         | None => [Go.float64 (att_duration a)]
         end.
Proof.
  unfold att_metrics. simpl. rewrite value_Inc_eq.
  destruct (att_err a); rewrite ?value_Inc_eq, ?samples_Observe_eq.
  - rewrite app_nil_r. done.
  - rewrite N.add_0_r. done.
Qed.

Lemma turns_miss (ats : list Attempt) (m : Metrics) l :
  l ∉ att_labels <$> ats ->
  let m' := foldl (fun m a => att_metrics a m) m ats in
  value (recordsProduced m') l = value (recordsProduced m) l /\
  value (recordsProducedFailed m') l = value (recordsProducedFailed m) l /\
  samples (recordsProducedLatency m') l = samples (recordsProducedLatency m) l.
Proof.
  revert m. induction ats as [|a ats IH]; intros m Hl; [done|].
  cbn [fmap list_fmap] in Hl. apply not_elem_of_cons in Hl as [Hne Hl].
  cbn [foldl]. cbv zeta.
  destruct (IH (att_metrics a m) Hl) as (-> & -> & ->).
  apply att_metrics_miss. congruence.
Qed.

(** With pairwise distinct labels, the [k]-th turn of a list accounts
    for the whole change at its labels. *)
Lemma turns_hit (ats : list Attempt) (m : Metrics) (k : nat) (a : Attempt) :
  NoDup (att_labels <$> ats) ->
  ats !! k = Some a ->
  let m' := foldl (fun m a => att_metrics a m) m ats in
  value (recordsProduced m') (att_labels a)
    = (value (recordsProduced m) (att_labels a) + 1)%N /\
  value (recordsProducedFailed m') (att_labels a)
    = (value (recordsProducedFailed m) (att_labels a)
       + match att_err a with Some _ => 1 | None => 0 end)%N /\
  samples (recordsProducedLatency m') (att_labels a)
    = samples (recordsProducedLatency m) (att_labels a)
      ++ match att_err a with
         | Some _ => []
         | None => [Go.float64 (att_duration a)]
         end.
Proof.
  revert m k. induction ats as [|a0 ats IH]; intros m k Hnd Hk; [done|].
  cbn [fmap list_fmap] in Hnd. apply NoDup_cons in Hnd as [Hfresh Hnd].
  cbn [foldl]. cbv zeta. destruct k as [|k]; simpl in Hk.
  - injection Hk as ->.
    destruct (turns_miss ats (att_metrics a m) _ Hfresh) as (-> & -> & ->).
    apply att_metrics_hit.
  - destruct (IH (att_metrics a0 m) k Hnd Hk) as (-> & -> & ->).
    assert (Hne : att_labels a0 <> att_labels a).
    { intros Heq. apply Hfresh. rewrite Heq.
      apply list_elem_of_fmap. exists a. split; [done|].
      by apply list_elem_of_lookup_2 with k. }
    destruct (att_metrics_miss a0 m _ Hne) as (-> & -> & ->). done.
Qed.

End Vectors.

(** ** [Send] as a list of turns *)

Section SendTurns.

Context {E : Type}.
Context `{!sarama.Client E, !sarama.SyncProducer E, !time.Clock E}.

Implicit Types (w : World E) (n : Z).

Lemma labels_NoDup (cid : string) (l : list Z) :
  NoDup l -> NoDup ((fun i => (cid, Go.Itoa i)) <$> l).
Proof.
  intros Hl. apply NoDup_fmap_2; [|done].
  intros i j Hij. apply Itoa_inj. congruence.
Qed.

(** For an [int] argument [Send] returns, and its whole effect is that
    of one turn per loop variable 0, 1, ..., [numPartitions - 1]. *)
Lemma Send_turns n w :
  n <= Go.max_int ->
  exists (ats : list Attempt) (w' : World E),
    Send n w = Returned tt w' /\
    att_i <$> ats = seqZ 0 n /\
    canaryConfig (ps w') = canaryConfig (ps w) /\
    Go.int (index (ps w')) = Go.int (index (ps w) + Z.of_nat (Z.to_nat n)) /\
    trace w' =
      trace w ++
      concat (att_events (config.Topic (canaryConfig (ps w))) <$> ats) /\
    metrics w' = foldl (fun m a => att_metrics a m) (metrics w) ats /\
    NoDup (att_labels <$> ats) /\
    forall (k : nat) (a : Attempt),
      ats !! k = Some a ->
      att_i a = Z.of_nat k /\
      att_labels a
        = (config.ClientID (canaryConfig (ps w)), Go.Itoa (Z.of_nat k)) /\
      att_cm a =
        {| ProducerID := config.ClientID (canaryConfig (ps w));
           MessageID := Go.int (index (ps w) + Z.of_nat k + 1);
           Timestamp := Go.div (att_created a) 1000000 |} /\
      (Go.min_int <= att_created a <= Go.max_int) /\
      (Go.min_int <= att_acked a <= Go.max_int).
Proof.
  intros Hn.
  set (topic := config.Topic (canaryConfig (ps w))).
  exists (run topic (seqZ 0 n) w).1, (run topic (seqZ 0 n) w).2.
  split; [by apply Send_run|].
  split; [apply run_att_i|].
  split; [apply run_config|].
  split; [by rewrite run_index, length_seqZ|].
  split; [apply run_trace|].
  split; [apply run_metrics|].
  split.
  { rewrite run_labels. apply labels_NoDup, NoDup_seqZ. }
  intros k a Hk.
  assert (Hi : att_i a = Z.of_nat k).
  { pose proof (run_att_i topic (seqZ 0 n) w) as Hl.
    apply (f_equal (fun x => x !! k)) in Hl.
    rewrite list_lookup_fmap, Hk in Hl. simpl in Hl.
    symmetry in Hl. apply lookup_seqZ in Hl. lia. }
  pose proof (run_message _ _ _ _ _ Hk) as Hcm.
  split; [done|]. split.
  { unfold att_labels. by rewrite Hcm, Hi. }
  split; [done|]. by apply run_clock in Hk.
Qed.

(** The number of turns. *)
Lemma turns_length n (ats : list Attempt) :
  att_i <$> ats = seqZ 0 n -> length ats = Z.to_nat n.
Proof.
  intros Hats. apply (f_equal length) in Hats.
  by rewrite length_fmap, length_seqZ in Hats.
Qed.

Lemma int32_seqZ n : 0 <= n <= 2 ^ 31 -> Go.int32 <$> seqZ 0 n = seqZ 0 n.
Proof.
  intros Hn. rewrite <- (list_fmap_id (seqZ 0 n)) at 2.
  apply Forall_fmap_ext, Forall_seqZ. intros i Hi. unfold id.
  apply int32_small. unfold Go.max_int32. rewrite pow2_31 in *. lia.
Qed.

(** How [Send] moves the produced counter: up by one at the labels of
    every loop variable, not at all elsewhere. *)
Lemma Send_produced n w (w' : World E) (ats : list Attempt) :
  att_i <$> ats = seqZ 0 n ->
  metrics w' = foldl (fun m a => att_metrics a m) (metrics w) ats ->
  NoDup (att_labels <$> ats) ->
  (forall (k : nat) (a : Attempt),
     ats !! k = Some a ->
     att_labels a
     = (config.ClientID (canaryConfig (ps w)), Go.Itoa (Z.of_nat k))) ->
  (forall i, 0 <= i < n ->
     exists a, ats !! Z.to_nat i = Some a /\
     prometheus.value (recordsProduced (metrics w'))
       (config.ClientID (canaryConfig (ps w)), Go.Itoa i)
     = (prometheus.value (recordsProduced (metrics w))
          (config.ClientID (canaryConfig (ps w)), Go.Itoa i) + 1)%N /\
     prometheus.value (recordsProducedFailed (metrics w'))
       (config.ClientID (canaryConfig (ps w)), Go.Itoa i)
     = (prometheus.value (recordsProducedFailed (metrics w))
          (config.ClientID (canaryConfig (ps w)), Go.Itoa i)
        + match att_err a with Some _ => 1 | None => 0 end)%N) /\
  (forall l : prometheus.Labels,
     (forall i, 0 <= i < n ->
        l <> (config.ClientID (canaryConfig (ps w)), Go.Itoa i)) ->
     prometheus.value (recordsProduced (metrics w')) l
     = prometheus.value (recordsProduced (metrics w)) l).
Proof.
  intros Hats Hm Hnd Hlab. pose proof (turns_length _ _ Hats) as Hlen. split.
  - intros i Hi.
    destruct (lookup_lt_is_Some_2 ats (Z.to_nat i)) as [a Ha]; [lia|].
    exists a. split; [done|].
    destruct (turns_hit ats (metrics w) _ a Hnd Ha) as (Hp & Hf & _).
    rewrite <- Hm, (Hlab _ _ Ha), Z2Nat.id in Hp, Hf by lia. done.
  - intros l Hl.
    destruct (turns_miss ats (metrics w) l) as (Hp & _); [|by rewrite Hm].
    intros Hin. apply list_elem_of_fmap in Hin as (a & -> & Hin).
    apply list_elem_of_lookup in Hin as [k Ha].
    apply (Hl (Z.of_nat k)); [|by apply Hlab].
    apply lookup_lt_Some in Ha. lia.
Qed.

Lemma NewProducerService_spec (cfg : config.CanaryConfig) w (w' : World E) :
  NewProducerService cfg w = Returned tt w' ->
  ps w' = {| canaryConfig := cfg; index := 0 |}.
Proof.
  unfold NewProducerService. run_M.
  destruct (sarama.NewSyncProducerFromClient (env w)) as [[e|] env'];
    simpl; [done|].
  by intros [= <-].
Qed.

(** [k] calls in a row all return; the [j]-th of them (from 1) yields the
    counter it started from plus [j], wrapped as an [int]. *)
Lemma newCanaryMessages_spec (k : nat) w :
  exists (cms : list CanaryMessage) (w' : World E),
    newCanaryMessages k w = Returned cms w' /\
    MessageID <$> cms
      = (fun j => Go.int (index (ps w) + j)) <$> seqZ 1 (Z.of_nat k) /\
    canaryConfig (ps w') = canaryConfig (ps w) /\
    Go.int (index (ps w')) = Go.int (index (ps w) + Z.of_nat k) /\
    metrics w' = metrics w.
Proof.
  revert w. induction k as [|k IH]; intros w.
  - exists [], w. repeat split. simpl. f_equal. lia.
  - cbn [newCanaryMessages]. unfold mbind, M_bind, bind.
    rewrite newCanaryMessage_spec.
    match goal with
    | |- context [newCanaryMessages k ?w1] =>
        destruct (IH w1) as (cms & w' & -> & Hids & Hcfg & Hidx & Hm)
    end.
    simpl in *. eexists _, w'. split; [reflexivity|].
    split; [|split; [done|split; [|done]]].
    + rewrite (seqZ_cons 1) by lia. cbn [fmap list_fmap]. f_equal.
      rewrite Hids. replace (Z.pred (Z.of_nat (S k))) with (Z.of_nat k) by lia.
      rewrite <- (fmap_add_seqZ 1 1), <- list_fmap_compose.
      apply list_fmap_ext. intros _ j _. simpl.
      rewrite int_add_wrap. f_equal. lia.
    + rewrite Hidx, int_add_wrap. f_equal. lia.
Qed.

End SendTurns.

(** ** [Send] as calls on the environment *)

Lemma sends_of_app (cs1 cs2 : list Call) :
  sends_of (cs1 ++ cs2) = sends_of cs1 ++ sends_of cs2.
Proof. apply omap_app. Qed.

Lemma sends_of_turns (topic : string) (ats : list Attempt) :
  sends_of (concat (att_calls topic <$> ats)) =
  (fun a => (att_msg topic a, att_err a)) <$> ats.
Proof.
  induction ats as [|a ats IH]; [done|].
  cbn [fmap list_fmap concat]. rewrite sends_of_app. f_equal. apply IH.
Qed.

Lemma reads_of_turns (topic : string) (ats : list Attempt) :
  reads_of (concat (att_calls topic <$> ats)) =
  concat ((fun a => [att_created a; att_acked a]) <$> ats).
Proof.
  induction ats as [|a ats IH]; [done|].
  cbn [fmap list_fmap concat]. unfold reads_of in *.
  rewrite omap_app. f_equal. apply IH.
Qed.

Lemma turns_calls_length (topic : string) (ats : list Attempt) :
  length (concat (att_calls topic <$> ats)) = (3 * length ats)%nat /\
  length (reads_of (concat (att_calls topic <$> ats)))
    = (2 * length ats)%nat.
Proof.
  rewrite reads_of_turns.
  induction ats as [|a ats [IH1 IH2]]; [done|].
  cbn [fmap list_fmap concat]. rewrite !length_app, IH1, IH2. simpl. lia.
Qed.

(** The calls of turns are clock readings and sends. *)
Lemma turns_calls_kind (topic : string) (ats : list Attempt) (c : Call) :
  c ∈ concat (att_calls topic <$> ats) ->
  match c with
  | CUnixNano _ | CSendMessage _ _ _ _ => True
  | CRefreshMetadata _ _ | CClose _ | CNewSyncProducerFromClient _ => False
  end.
Proof.
  induction ats as [|a ats IH]; cbn [fmap list_fmap concat].
  - by intros ?%elem_of_nil.
  - intros [Hin|Hin]%elem_of_app; [|by apply IH].
    unfold att_calls in Hin.
    repeat (apply elem_of_cons in Hin as [->|Hin]; [done|]).
    by apply elem_of_nil in Hin.
Qed.

Section SendCalls.

Context {E : Type}.
Context `{!sarama.Client E, !sarama.SyncProducer E, !time.Clock E}.

Implicit Types (w : World E) (n : Z) (topic : string).

Lemma Calls_app (e1 e2 e3 : E) (cs1 cs2 : list Call) :
  Calls e1 cs1 e2 -> Calls e2 cs2 e3 -> Calls e1 (cs1 ++ cs2) e3.
Proof.
  intros H12 H23. induction H12; simpl; [done|..];
    econstructor; eauto.
Qed.

(** One turn makes its three calls on the environment, and no other. *)
Lemma attempt_calls topic i w :
  Calls (env w) (att_calls topic (attempt_of topic i w).1)
        (env (after_attempt topic i w)).
Proof.
  unfold after_attempt, attempt_of, att_calls.
  destruct (time.UnixNano (env w)) as [created e1] eqn:Hc.
  destruct (sarama.SendMessage _ e1) as [[[partition offset] err] e2] eqn:Hs.
  destruct (time.UnixNano e2) as [acked e3] eqn:Ha. simpl.
  eapply Calls_UnixNano; [exact Hc|].
  eapply Calls_SendMessage; [exact Hs|].
  eapply Calls_UnixNano; [exact Ha|]. constructor.
Qed.

Lemma run_calls topic (l : list Z) w :
  Calls (env w) (concat (att_calls topic <$> (run topic l w).1))
        (env (run topic l w).2).
Proof.
  revert w. induction l as [|i l IH]; intros w; [constructor|].
  rewrite run_cons. cbn [fst snd fmap list_fmap concat].
  eapply Calls_app; [apply attempt_calls|apply IH].
Qed.

(** [Send_turns], with the calls that the turns make on the
    environment. *)
Lemma Send_turns_env n w :
  n <= Go.max_int ->
  exists (ats : list Attempt) (w' : World E),
    Send n w = Returned tt w' /\
    Calls (env w)
          (concat (att_calls (config.Topic (canaryConfig (ps w))) <$> ats))
          (env w') /\
    att_i <$> ats = seqZ 0 n /\
    canaryConfig (ps w') = canaryConfig (ps w) /\
    metrics w' = foldl (fun m a => att_metrics a m) (metrics w) ats /\
    NoDup (att_labels <$> ats) /\
    forall (k : nat) (a : Attempt),
      ats !! k = Some a ->
      att_i a = Z.of_nat k /\
      att_labels a
        = (config.ClientID (canaryConfig (ps w)), Go.Itoa (Z.of_nat k)) /\
      att_cm a =
        {| ProducerID := config.ClientID (canaryConfig (ps w));
           MessageID := Go.int (index (ps w) + Z.of_nat k + 1);
           Timestamp := Go.div (att_created a) 1000000 |} /\
      (Go.min_int <= att_created a <= Go.max_int) /\
      (Go.min_int <= att_acked a <= Go.max_int).
Proof.
  intros Hn.
  set (topic := config.Topic (canaryConfig (ps w))).
  exists (run topic (seqZ 0 n) w).1, (run topic (seqZ 0 n) w).2.
  split; [by apply Send_run|].
  split; [apply run_calls|].
  split; [apply run_att_i|].
  split; [apply run_config|].
  split; [apply run_metrics|].
  split.
  { rewrite run_labels. apply labels_NoDup, NoDup_seqZ. }
  intros k a Hk.
  assert (Hi : att_i a = Z.of_nat k).
  { pose proof (run_att_i topic (seqZ 0 n) w) as Hl.
    apply (f_equal (fun x => x !! k)) in Hl.
    rewrite list_lookup_fmap, Hk in Hl. simpl in Hl.
    symmetry in Hl. apply lookup_seqZ in Hl. lia. }
  pose proof (run_message _ _ _ _ _ Hk) as Hcm.
  split; [done|]. split.
  { unfold att_labels. by rewrite Hcm, Hi. }
  split; [done|]. by apply run_clock in Hk.
Qed.

(** On an environment with a journal, the calls made are the ones the
    journal has gained. *)
Lemma journal_Calls (j j' : journal.Journal E) (cs : list Call) :
  Calls j cs j' -> journal.calls j' = journal.calls j ++ cs.
Proof.
  induction 1 as [e|e e1 e' ns cs Hop _ IH|e e1 e' msg p o err cs Hop _ IH
                  |e e1 e' topic err cs Hop _ IH|e e1 e' err cs Hop _ IH
                  |e e1 e' err cs Hop _ IH];
    [by rewrite app_nil_r|..];
    rewrite IH; simpl in Hop; unfold journal.enter in Hop;
    match type of Hop with
    | (let '(_, _) := ?op in _) = _ => destruct op as [a e0]
    end;
    injection Hop as Ha He; subst; simpl; by rewrite <- app_assoc.
Qed.

End SendCalls.

(** * The claims *)

Section Claims.

Context {E : Type}.
Context `{!sarama.Client E, !sarama.SyncProducer E, !time.Clock E}.

Implicit Types (w : World E) (n : Z).

(** The argument of [Send] is an [int]; this is all that the hypothesis
    [n <= Go.max_int] of the statements below says. *)

(** C7.  [Send] with [numPartitions = 0] is a no-op: the call returns
    and leaves the world exactly as it found it.  The sequence counter
    and the three metric vectors keep their values, the environment is
    untouched (no clock reading, no [SendMessage]) and nothing is
    appended to the trace, so no message was built. *)
Theorem Send_zero_is_noop w : Send 0 w = Returned tt w.
Proof. reflexivity. Qed.

(** C10.  For every negative [numPartitions] [Send] returns at once and
    leaves the world exactly as it found it, as it does for 0: no send
    is attempted, the sequence counter and the three metric vectors
    keep their values. *)
Theorem Send_negative_is_noop n w : n < 0 -> Send n w = Returned tt w.
Proof. intros Hn. destruct n as [|p|p]; [lia..|reflexivity]. Qed.

(** C9.  [Refresh] returns normally whatever [RefreshMetadata] answers.
    It neither exits nor panics, it leaves the service (sequence
    counter included) and the metric vectors as they were, and an error
    shows up in the log only. *)
Theorem Refresh_never_fails w :
  let topic := config.Topic (canaryConfig (ps w)) in
  let err := (sarama.RefreshMetadata topic (env w)).1 in
  exists w' : World E,
    Refresh w = Returned tt w' /\
    ps w' = ps w /\
    metrics w' = metrics w /\
    env w' = (sarama.RefreshMetadata topic (env w)).2 /\
    trace w' =
      trace w ++
      [ELog LogRefreshing; ERefreshMetadata topic err] ++
      match err with
      | Some e => [ELog (LogRefreshError e)]
      | None => []
      end.
Proof.
  intros topic err. subst topic err. unfold Refresh. run_M.
  destruct (sarama.RefreshMetadata _ (env w)) as [[e|] env'] eqn:Hr;
    simpl; eexists; (split; [reflexivity|]); simpl;
    rewrite <- ?app_assoc; done.
Qed.

(** C3.  In [Send], turn by turn: the [k]-th [SendMessage] call made on
    the environment is the one for loop variable [k], that is for
    partition [int32(k)], which is [k] itself below 2^31; when the
    environment answers it with an error the failed counter labelled
    (clientid, [k]) goes up by one and the latency histogram with these
    labels gets no sample; when it answers without error the failed
    counter keeps its value and the histogram gets exactly one sample. *)
Theorem Send_failed_iff_error n w :
  n <= Go.max_int ->
  exists (w' : World E) (cs : list Call),
    Send n w = Returned tt w' /\
    Calls (env w) cs (env w') /\
    length (sends_of cs) = Z.to_nat n /\
    forall (k : nat) (msg : sarama.ProducerMessage) (err : Go.error),
      sends_of cs !! k = Some (msg, err) ->
      let l := (config.ClientID (canaryConfig (ps w)), Go.Itoa (Z.of_nat k)) in
      sarama.Partition msg = Go.int32 (Z.of_nat k) /\
      (Z.of_nat k <= Go.max_int32 -> sarama.Partition msg = Z.of_nat k) /\
      match err with
      | Some _ =>
          prometheus.value (recordsProducedFailed (metrics w')) l
            = (prometheus.value (recordsProducedFailed (metrics w)) l + 1)%N /\
          prometheus.samples (recordsProducedLatency (metrics w')) l
            = prometheus.samples (recordsProducedLatency (metrics w)) l
      | None =>
          prometheus.value (recordsProducedFailed (metrics w')) l
            = prometheus.value (recordsProducedFailed (metrics w)) l /\
          exists v : Z,
            prometheus.samples (recordsProducedLatency (metrics w')) l
            = prometheus.samples (recordsProducedLatency (metrics w)) l ++ [v]
      end.
Proof.
  intros Hn.
  destruct (Send_turns_env n w Hn)
    as (ats & w' & Hsend & Hcalls & Hats & _ & Hm & Hnd & Hk).
  exists w', (concat (att_calls (config.Topic (canaryConfig (ps w))) <$> ats)).
  split; [done|]. split; [done|]. rewrite sends_of_turns. split.
  { rewrite length_fmap. by apply turns_length. }
  intros k msg err Hl. rewrite list_lookup_fmap in Hl.
  destruct (ats !! k) as [a|] eqn:Ha; [|done].
  simpl in Hl. injection Hl as <- <-.
  destruct (Hk k a Ha) as (Hi & Hlab & _).
  destruct (turns_hit ats (metrics w) k a Hnd Ha) as (_ & Hf & Hs).
  rewrite <- Hm, Hlab in Hf, Hs. simpl. rewrite Hi. split; [done|]. split.
  { intros Hsmall. apply int32_small.
    unfold Go.max_int32 in *. rewrite pow2_31 in *. lia. }
  destruct (att_err a).
  - by rewrite app_nil_r in Hs.
  - rewrite N.add_0_r in Hf. eauto.
Qed.

(** C5.  Every turn of [Send] makes three calls on the environment, in
    this order: it reads the clock, and the reading in milliseconds is
    the timestamp of the message; it hands the message to [SendMessage];
    it reads the clock again.  When [SendMessage] answers without error,
    the sample appended to the histogram labelled (clientid, [k]) is the
    second reading minus the first, both in milliseconds, as it is:
    neither the [int64] subtraction nor the conversion to [float64]
    alters it, and nothing clamps a negative difference.  When it answers
    with an error no sample is appended. *)
Theorem Send_latency_sample n w :
  n <= Go.max_int ->
  exists (w' : World E) (ats : list Attempt),
    Send n w = Returned tt w' /\
    Calls (env w)
          (concat (att_calls (config.Topic (canaryConfig (ps w))) <$> ats))
          (env w') /\
    length ats = Z.to_nat n /\
    forall (k : nat) (a : Attempt),
      ats !! k = Some a ->
      let l := (config.ClientID (canaryConfig (ps w)), Go.Itoa (Z.of_nat k)) in
      att_i a = Z.of_nat k /\
      Timestamp (att_cm a) = Go.div (att_created a) 1000000 /\
      (att_err a = None ->
       prometheus.samples (recordsProducedLatency (metrics w')) l
       = prometheus.samples (recordsProducedLatency (metrics w)) l
         ++ [Go.div (att_acked a) 1000000 - Go.div (att_created a) 1000000]) /\
      (att_err a <> None ->
       prometheus.samples (recordsProducedLatency (metrics w')) l
       = prometheus.samples (recordsProducedLatency (metrics w)) l).
Proof.
  intros Hn.
  destruct (Send_turns_env n w Hn)
    as (ats & w' & Hsend & Hcalls & Hats & _ & Hm & Hnd & Hk).
  exists w', ats. split; [done|]. split; [done|].
  split; [by apply turns_length|].
  intros k a Ha. destruct (Hk k a Ha) as (Hi & Hlab & Hcm & Hc & Hack).
  destruct (turns_hit ats (metrics w) k a Hnd Ha) as (_ & _ & Hs).
  rewrite <- Hm, Hlab in Hs. simpl.
  split; [done|]. split; [by rewrite Hcm|]. split.
  - intros Herr. rewrite Herr in Hs. rewrite Hs. do 2 f_equal.
    unfold att_duration. rewrite Hcm. simpl. by apply latency_exact.
  - intros Herr. destruct (att_err a); [|done]. by rewrite app_nil_r in Hs.
Qed.

(** C8.  The message handed to [SendMessage] in the [k]-th turn of
    [Send] carries as its value the JSON object with the three fields
    producerId, messageId and timestamp and no other: producerId is the
    configured client id, messageId the sequence number of the message,
    that is the sequence counter before the call plus [k + 1], and
    timestamp the clock reading taken just before, in milliseconds. *)
Theorem Send_payload n w :
  n <= Go.max_int ->
  exists (w' : World E) (ats : list Attempt),
    Send n w = Returned tt w' /\
    Calls (env w)
          (concat (att_calls (config.Topic (canaryConfig (ps w))) <$> ats))
          (env w') /\
    length ats = Z.to_nat n /\
    forall (k : nat) (a : Attempt),
      ats !! k = Some a ->
      sarama.Value (att_msg (config.Topic (canaryConfig (ps w))) a) =
      Some (JObject
              [ ("producerId"%string,
                 JString (config.ClientID (canaryConfig (ps w))));
                ("messageId"%string,
                 JNumber (Go.int (index (ps w) + Z.of_nat k + 1)));
                ("timestamp"%string,
                 JNumber (Go.div (att_created a) 1000000)) ]).
Proof.
  intros Hn.
  destruct (Send_turns_env n w Hn)
    as (ats & w' & Hsend & Hcalls & Hats & _ & _ & _ & Hk).
  exists w', ats. split; [done|]. split; [done|].
  split; [by apply turns_length|].
  intros k a Ha. destruct (Hk k a Ha) as (_ & _ & Hcm & _).
  simpl. unfold Json. by rewrite Hcm.
Qed.

(** C1, as amended.  For every [numPartitions] from 0 on, [Send] calls
    [SendMessage] on the environment exactly [numPartitions] times, in
    the order of the loop variable [i] = 0, 1, ..., [numPartitions - 1],
    each time for partition [int32(i)], which is [i] itself for all of
    them when [numPartitions] is at most 2^31.  It moves the produced
    counter up by exactly one at the labels (clientid, [i]) of each of
    them, whatever the call answered, and at no other labels. *)
Theorem Send_one_attempt_per_partition n w :
  0 <= n <= Go.max_int ->
  exists (w' : World E) (cs : list Call),
    Send n w = Returned tt w' /\
    Calls (env w) cs (env w') /\
    (fun s => sarama.Partition s.1) <$> sends_of cs = Go.int32 <$> seqZ 0 n /\
    (n <= 2 ^ 31 ->
     (fun s => sarama.Partition s.1) <$> sends_of cs = seqZ 0 n) /\
    (forall i, 0 <= i < n ->
       prometheus.value (recordsProduced (metrics w'))
         (config.ClientID (canaryConfig (ps w)), Go.Itoa i)
       = (prometheus.value (recordsProduced (metrics w))
            (config.ClientID (canaryConfig (ps w)), Go.Itoa i) + 1)%N) /\
    (forall l : prometheus.Labels,
       (forall i, 0 <= i < n ->
          l <> (config.ClientID (canaryConfig (ps w)), Go.Itoa i)) ->
       prometheus.value (recordsProduced (metrics w')) l
       = prometheus.value (recordsProduced (metrics w)) l).
Proof.
  intros [Hn Hmax].
  destruct (Send_turns_env n w Hmax)
    as (ats & w' & Hsend & Hcalls & Hats & _ & Hm & Hnd & Hk).
  exists w', (concat (att_calls (config.Topic (canaryConfig (ps w))) <$> ats)).
  split; [done|]. split; [done|].
  assert (Hparts :
    (fun s : sarama.ProducerMessage * Go.error => sarama.Partition s.1)
      <$> sends_of
            (concat (att_calls (config.Topic (canaryConfig (ps w))) <$> ats))
    = Go.int32 <$> seqZ 0 n).
  { rewrite sends_of_turns, <- Hats, <- !list_fmap_compose. done. }
  split; [done|]. split.
  { intros Hsmall. rewrite Hparts. by apply int32_seqZ. }
  destruct (Send_produced n w w' ats Hats Hm Hnd) as [Hhit Hmiss].
  { intros k a Ha. by destruct (Hk k a Ha) as (_ & ? & _). }
  split; [|done].
  intros i Hi. by destruct (Hhit i Hi) as (a & _ & ? & _).
Qed.

(** C4, as amended.  For every [numPartitions] from 0 on and every
    behaviour of the broker client, [Send] returns normally, and for
    every loop variable [i] below [numPartitions] the [i]-th
    [SendMessage] call made on the environment is the one for partition
    [int32(i)], which is [i] itself as long as [i] is below 2^31; the
    produced counter labelled (clientid, [i]) has gone up by one and the
    failed counter by one exactly when that call was answered with an
    error.  An error of one call thus changes nothing for the partitions
    after it. *)
Theorem Send_failure_isolation n w :
  0 <= n <= Go.max_int ->
  exists (w' : World E) (cs : list Call),
    Send n w = Returned tt w' /\
    Calls (env w) cs (env w') /\
    length (sends_of cs) = Z.to_nat n /\
    forall i, 0 <= i < n ->
      exists (msg : sarama.ProducerMessage) (err : Go.error),
        sends_of cs !! Z.to_nat i = Some (msg, err) /\
        sarama.Partition msg = Go.int32 i /\
        (i <= Go.max_int32 -> sarama.Partition msg = i) /\
        prometheus.value (recordsProduced (metrics w'))
          (config.ClientID (canaryConfig (ps w)), Go.Itoa i)
        = (prometheus.value (recordsProduced (metrics w))
             (config.ClientID (canaryConfig (ps w)), Go.Itoa i) + 1)%N /\
        prometheus.value (recordsProducedFailed (metrics w'))
          (config.ClientID (canaryConfig (ps w)), Go.Itoa i)
        = (prometheus.value (recordsProducedFailed (metrics w))
             (config.ClientID (canaryConfig (ps w)), Go.Itoa i)
           + match err with Some _ => 1 | None => 0 end)%N.
Proof.
  intros [Hn Hmax].
  destruct (Send_turns_env n w Hmax)
    as (ats & w' & Hsend & Hcalls & Hats & _ & Hm & Hnd & Hk).
  exists w', (concat (att_calls (config.Topic (canaryConfig (ps w))) <$> ats)).
  split; [done|]. split; [done|]. rewrite sends_of_turns.
  split; [rewrite length_fmap; by apply turns_length|].
  destruct (Send_produced n w w' ats Hats Hm Hnd) as [Hhit _].
  { intros k a Ha. by destruct (Hk k a Ha) as (_ & ? & _). }
  intros i Hi. destruct (Hhit i Hi) as (a & Ha & Hp & Hf).
  exists (att_msg (config.Topic (canaryConfig (ps w))) a), (att_err a).
  split; [by rewrite list_lookup_fmap, Ha|].
  destruct (Hk _ a Ha) as (Hai & _).
  assert (Hpart : sarama.Partition
                    (att_msg (config.Topic (canaryConfig (ps w))) a)
                  = Go.int32 i).
  { simpl. rewrite Hai, Z2Nat.id by lia. done. }
  split; [done|]. split; [|done].
  intros Hsmall. rewrite Hpart. apply int32_small.
  unfold Go.max_int32 in *. rewrite pow2_31 in *. lia.
Qed.

(** C2, as amended.  On a service that [NewProducerService] has just
    returned, [k] calls of the message factory in a row yield the
    sequence numbers 1, 2, ..., [k], and a [Send] for [n] partitions
    after them carries on with [k + 1], ..., [k + n], one per partition
    in loop order - as long as [k + n] does not exceed the largest
    [int], 2^63 - 1. *)
Theorem sequence_numbers_consecutive
    (cfg : config.CanaryConfig) (w0 w : World E) (k : nat) n :
  NewProducerService cfg w0 = Returned tt w ->
  0 <= n ->
  Z.of_nat k + n <= Go.max_int ->
  exists (cms : list CanaryMessage) (w1 w2 : World E) (ats : list Attempt),
    newCanaryMessages k w = Returned cms w1 /\
    MessageID <$> cms = seqZ 1 (Z.of_nat k) /\
    Send n w1 = Returned tt w2 /\
    trace w2 = trace w1 ++ concat (att_events (config.Topic cfg) <$> ats) /\
    (fun a => MessageID (att_cm a)) <$> ats = seqZ (Z.of_nat k + 1) n.
Proof.
  intros Hnew Hn Hk. apply NewProducerService_spec in Hnew.
  assert (Hmax : n <= Go.max_int) by lia.
  destruct (newCanaryMessages_spec k w)
    as (cms & w1 & Hcalls & Hids & Hcfg & Hidx & _).
  destruct (Send_turns n w1 Hmax)
    as (ats & w2 & Hsend & Hats & _ & _ & Htr & _ & _ & Hat).
  rewrite Hnew in *. simpl in *.
  exists cms, w1, w2, ats. split; [done|]. split.
  { rewrite Hids. rewrite <- (list_fmap_id (seqZ 1 (Z.of_nat k))) at 2.
    apply Forall_fmap_ext, Forall_seqZ. intros j Hj. unfold id. simpl.
    apply int_small. unfold Go.min_int, Go.max_int in *.
    rewrite pow2_63 in *. lia. }
  split; [done|]. split; [by rewrite Htr, Hcfg|].
  apply list_eq. intros p. rewrite list_lookup_fmap.
  destruct (ats !! p) as [a|] eqn:Ha; simpl.
  - destruct (Hat p a Ha) as (_ & _ & -> & _). simpl.
    assert (Hp : Z.of_nat p < n).
    { apply lookup_lt_Some in Ha. rewrite (turns_length n ats Hats) in Ha. lia. }
    rewrite lookup_seqZ_lt by done. f_equal.
    replace (index (ps w1) + Z.of_nat p + 1)
      with (index (ps w1) + (Z.of_nat p + 1)) by lia.
    rewrite <- int_add_wrap, Hidx, int_add_wrap.
    rewrite int_small; [lia|].
    unfold Go.min_int, Go.max_int in *. rewrite pow2_63 in *. lia.
  - apply lookup_ge_None in Ha. rewrite (turns_length n ats Hats) in Ha.
    symmetry. apply lookup_seqZ_ge. lia.
Qed.

(** C6, as amended.  [Close] keeps no record of having been called:
    every call hands over to [Close] of the sync producer, and it ends
    the process with status 1 exactly when that call returns an error.
    So after a first [Close] that returned, a second one returns too
    when the producer accepts being closed again, and exits with
    status 1 when the producer answers with an error. *)
Theorem Close_twice w (w1 : World E) :
  Close w = Returned tt w1 ->
  (sarama.Close (env w)).1 = None /\
  match (sarama.Close (env w1)).1 with
  | Some e =>
      exists w2 : World E,
        Close w1 = Exited 1 w2 /\
        trace w2 =
          trace w1 ++ [ELog LogClosing; EClose (Some e); ELog (LogCloseError e)]
  | None =>
      exists w2 : World E,
        Close w1 = Returned tt w2 /\
        trace w2 = trace w1 ++ [ELog LogClosing; EClose None; ELog LogClosed]
  end.
Proof.
  intros Hfirst. split.
  - revert Hfirst. unfold Close. run_M.
    by destruct (sarama.Close (env w)) as [[e|] env'].
  - unfold Close. run_M.
    destruct (sarama.Close (env w1)) as [[e|] env']; simpl;
      eexists; (split; [reflexivity|]); simpl; by rewrite <- !app_assoc.
Qed.

End Claims.

(** ** Where the machine integers show *)

Section Limits.

Context {E : Type}.
Context `{!sarama.Client E, !sarama.SyncProducer E, !time.Clock E}.

Implicit Types (w : World E) (n : Z).

(** Past 2^31 the loop variable no longer fits the [int32] partition
    of the message: turn 2^31 is for partition -2^31. *)
Lemma int32_seqZ_wrap n : 2 ^ 31 < n -> Go.int32 <$> seqZ 0 n <> seqZ 0 n.
Proof.
  intros Hn Heq.
  assert (Hex : exists p : nat, Z.of_nat p = 2 ^ 31).
  { exists (Z.to_nat (2 ^ 31)). apply Z2Nat.id. lia. }
  destruct Hex as [p Hp].
  apply (f_equal (fun l => l !! p)) in Heq.
  rewrite list_lookup_fmap, lookup_seqZ_lt in Heq by lia.
  simpl in Heq. injection Heq as Hwrap.
  pose proof (int32_range (0 + Z.of_nat p)) as Hr.
  unfold Go.max_int32 in Hr. lia.
Qed.

(** [Send] on an environment that keeps a journal: what the journal has
    gained, and how its first turn went. *)
Lemma Send_journal n (w : World (journal.Journal E)) :
  n <= Go.max_int ->
  exists (w' : World (journal.Journal E)) (ats : list Attempt),
    Send n w = Returned tt w' /\
    journal.calls (env w') =
      journal.calls (env w) ++
      concat (att_calls (config.Topic (canaryConfig (ps w))) <$> ats) /\
    att_i <$> ats = seqZ 0 n /\
    (0 < n ->
     ats !! 0%nat
     = Some (attempt_of (config.Topic (canaryConfig (ps w))) 0 w).1).
Proof.
  intros Hn.
  set (topic := config.Topic (canaryConfig (ps w))).
  exists (run topic (seqZ 0 n) w).2, (run topic (seqZ 0 n) w).1.
  split; [by apply Send_run|].
  split; [apply journal_Calls, run_calls|].
  split; [apply run_att_i|].
  intros Hpos. rewrite (seqZ_cons 0 n) by done. by rewrite run_cons.
Qed.

(** The call of the factory that follows sequence number 2^63 - 1
    yields -2^63. *)
Lemma newCanaryMessages_wrap (k : nat) w :
  index (ps w) = 0 ->
  Z.of_nat k = 2 ^ 63 ->
  ~ exists (cms : list CanaryMessage) (w' : World E),
      newCanaryMessages k w = Returned cms w' /\
      MessageID <$> cms = seqZ 1 (2 ^ 63).
Proof.
  intros Hidx Hk (cms & w' & Hcalls & Hids).
  destruct (newCanaryMessages_spec k w) as (cms' & w'' & Hcalls' & Hids' & _).
  rewrite Hcalls in Hcalls'. injection Hcalls' as <- <-.
  rewrite Hids, Hidx, Hk in Hids'.
  assert (Hlast : exists q : nat, Z.of_nat q = 2 ^ 63 - 1).
  { exists (Nat.pred k). lia. }
  destruct Hlast as [q Hq].
  apply (f_equal (fun l => l !! q)) in Hids'.
  rewrite list_lookup_fmap, lookup_seqZ_lt in Hids' by lia.
  simpl in Hids'. injection Hids' as Hwrap.
  pose proof (int64_range (0 + (1 + Z.of_nat q))) as Hr.
  unfold Go.int in Hwrap. unfold Go.int64, Go.max_int in Hr. lia.
Qed.

End Limits.

(** * Concrete runs *)

(** The turn for loop variable 2^31: the labels carry 2147483648, the
    message goes to partition -2147483648. *)
Example Send_iteration_2147483648 :
  exists (msg : sarama.ProducerMessage) (w' : World fake.Script),
    Send_iteration
      {| sarama.Topic := "__strimzi_canary"; sarama.Value := None;
         sarama.Partition := 0 |}
      2147483648 (fake.fresh fake.quiet) = Returned msg w' /\
    sarama.Partition msg = -2147483648 /\
    (fun s => sarama.Partition s.1) <$> sent (trace w') = [-2147483648] /\
    prometheus.value (recordsProduced (metrics w'))
      ("canary"%string, "2147483648"%string) = 1%N.
Proof. eexists _, _. split; [vm_compute; reflexivity|]. vm_compute. repeat split. Qed.

(** The run of the second scenario: two clock readings and one send per
    partition, in order, and the metrics that result. *)
Example Send_second_fails_run :
  exists w' : World fake.Script,
    Send 3 (fake.fresh fake.second_fails) = Returned tt w' /\
    index (ps w') = 3 /\
    (fun s => (sarama.Partition s.1, s.2)) <$> sent (trace w')
      = [(0, None); (1, Some "leader not available"%string); (2, None)] /\
    clock_reads (trace w')
      = [1000000000; 1010000000; 2000000000; 2010000000;
         3000000000; 3010000000] /\
    (fun i => prometheus.value (recordsProduced (metrics w'))
                ("canary"%string, Go.Itoa i)) <$> [0; 1; 2; 3]
      = [1%N; 1%N; 1%N; 0%N] /\
    (fun i => prometheus.value (recordsProducedFailed (metrics w'))
                ("canary"%string, Go.Itoa i)) <$> [0; 1; 2; 3]
      = [0%N; 1%N; 0%N; 0%N] /\
    (fun i => prometheus.samples (recordsProducedLatency (metrics w'))
                ("canary"%string, Go.Itoa i)) <$> [0; 1; 2; 3]
      = [[10]; []; [10]; []].
Proof. eexists. split; [vm_compute; reflexivity|]. vm_compute. repeat split. Qed.

(** The same run as the journal of the environment has it. *)
Example Send_second_fails_journal :
  exists w' : World (journal.Journal fake.Script),
    Send 3 (journal.fresh fake.second_fails) = Returned tt w' /\
    length (journal.calls (env w')) = 9%nat /\
    (fun s => (sarama.Partition s.1, s.2)) <$> sends_of (journal.calls (env w'))
      = [(0, None); (1, Some "leader not available"%string); (2, None)] /\
    reads_of (journal.calls (env w'))
      = [1000000000; 1010000000; 2000000000; 2010000000;
         3000000000; 3010000000].
Proof. eexists. split; [vm_compute; reflexivity|]. vm_compute. repeat split. Qed.

(** With the clock set back during the first send, the sample is the
    negative difference, as it is. *)
Example Send_skewed_clock_run :
  exists w' : World fake.Script,
    Send 2 (fake.fresh fake.skewed) = Returned tt w' /\
    (fun i => prometheus.samples (recordsProducedLatency (metrics w'))
                ("canary"%string, Go.Itoa i)) <$> [0; 1]
      = [[-1000]; [10]].
Proof. eexists. split; [vm_compute; reflexivity|]. vm_compute. repeat split. Qed.

(** ** The statements above at concrete inputs *)

Lemma Send_negative_is_noop_witness :
  -1 < 0 /\
  Send (-1) (fake.fresh fake.quiet) = Returned tt (fake.fresh fake.quiet).
Proof.
  split; [lia|]. apply (Send_negative_is_noop (-1) (fake.fresh fake.quiet)). lia.
Defined.

Lemma Send_failed_iff_error_witness :
  (3 <= Go.max_int) /\
  (exists (w' : World (journal.Journal fake.Script)) (cs : list Call),
     Send 3 (journal.fresh fake.second_fails) = Returned tt w' /\
     Calls (env (journal.fresh fake.second_fails)) cs (env w') /\
     length (sends_of cs) = Z.to_nat 3 /\
     forall (k : nat) (msg : sarama.ProducerMessage) (err : Go.error),
       sends_of cs !! k = Some (msg, err) ->
       let l := (config.ClientID (canaryConfig (ps (journal.fresh fake.second_fails))), Go.Itoa (Z.of_nat k)) in
       sarama.Partition msg = Go.int32 (Z.of_nat k) /\
       (Z.of_nat k <= Go.max_int32 -> sarama.Partition msg = Z.of_nat k) /\
       match err with
       | Some _ =>
           prometheus.value (recordsProducedFailed (metrics w')) l
             = (prometheus.value (recordsProducedFailed (metrics (journal.fresh fake.second_fails))) l + 1)%N /\
           prometheus.samples (recordsProducedLatency (metrics w')) l
             = prometheus.samples (recordsProducedLatency (metrics (journal.fresh fake.second_fails))) l
       | None =>
           prometheus.value (recordsProducedFailed (metrics w')) l
             = prometheus.value (recordsProducedFailed (metrics (journal.fresh fake.second_fails))) l /\
           exists v : Z,
             prometheus.samples (recordsProducedLatency (metrics w')) l
             = prometheus.samples (recordsProducedLatency (metrics (journal.fresh fake.second_fails))) l ++ [v]
       end).
Proof.
  assert (Hyp1 : 3 <= Go.max_int)
    by (repeat split; by vm_compute).
  split; [exact Hyp1|].
  exact (Send_failed_iff_error 3 (journal.fresh fake.second_fails) Hyp1).
Defined.

Lemma Send_latency_sample_witness :
  (2 <= Go.max_int) /\
  (exists (w' : World (journal.Journal fake.Script)) (ats : list Attempt),
     Send 2 (journal.fresh fake.skewed) = Returned tt w' /\
     Calls (env (journal.fresh fake.skewed))
           (concat (att_calls (config.Topic (canaryConfig (ps (journal.fresh fake.skewed)))) <$> ats))
           (env w') /\
     length ats = Z.to_nat 2 /\
     forall (k : nat) (a : Attempt),
       ats !! k = Some a ->
       let l := (config.ClientID (canaryConfig (ps (journal.fresh fake.skewed))), Go.Itoa (Z.of_nat k)) in
       att_i a = Z.of_nat k /\
       Timestamp (att_cm a) = Go.div (att_created a) 1000000 /\
       (att_err a = None ->
        prometheus.samples (recordsProducedLatency (metrics w')) l
        = prometheus.samples (recordsProducedLatency (metrics (journal.fresh fake.skewed))) l
          ++ [Go.div (att_acked a) 1000000 - Go.div (att_created a) 1000000]) /\
       (att_err a <> None ->
        prometheus.samples (recordsProducedLatency (metrics w')) l
        = prometheus.samples (recordsProducedLatency (metrics (journal.fresh fake.skewed))) l)).
Proof.
  assert (Hyp1 : 2 <= Go.max_int)
    by (repeat split; by vm_compute).
  split; [exact Hyp1|].
  exact (Send_latency_sample 2 (journal.fresh fake.skewed) Hyp1).
Defined.

Lemma Send_payload_witness :
  (3 <= Go.max_int) /\
  (exists (w' : World (journal.Journal fake.Script)) (ats : list Attempt),
     Send 3 (journal.fresh fake.all_succeed) = Returned tt w' /\
     Calls (env (journal.fresh fake.all_succeed))
           (concat (att_calls (config.Topic (canaryConfig (ps (journal.fresh fake.all_succeed)))) <$> ats))
           (env w') /\
     length ats = Z.to_nat 3 /\
     forall (k : nat) (a : Attempt),
       ats !! k = Some a ->
       sarama.Value (att_msg (config.Topic (canaryConfig (ps (journal.fresh fake.all_succeed)))) a) =
       Some (JObject
               [ ("producerId"%string,
                  JString (config.ClientID (canaryConfig (ps (journal.fresh fake.all_succeed)))));
                 ("messageId"%string,
                  JNumber (Go.int (index (ps (journal.fresh fake.all_succeed)) + Z.of_nat k + 1)));
                 ("timestamp"%string,
                  JNumber (Go.div (att_created a) 1000000)) ])).
Proof.
  assert (Hyp1 : 3 <= Go.max_int)
    by (repeat split; by vm_compute).
  split; [exact Hyp1|].
  exact (Send_payload 3 (journal.fresh fake.all_succeed) Hyp1).
Defined.

Lemma Send_one_attempt_per_partition_witness :
  (0 <= 3 <= Go.max_int) /\
  (exists (w' : World (journal.Journal fake.Script)) (cs : list Call),
     Send 3 (journal.fresh fake.all_succeed) = Returned tt w' /\
     Calls (env (journal.fresh fake.all_succeed)) cs (env w') /\
     (fun s => sarama.Partition s.1) <$> sends_of cs = Go.int32 <$> seqZ 0 3 /\
     (3 <= 2 ^ 31 ->
      (fun s => sarama.Partition s.1) <$> sends_of cs = seqZ 0 3) /\
     (forall i, 0 <= i < 3 ->
        prometheus.value (recordsProduced (metrics w'))
          (config.ClientID (canaryConfig (ps (journal.fresh fake.all_succeed))), Go.Itoa i)
        = (prometheus.value (recordsProduced (metrics (journal.fresh fake.all_succeed)))
             (config.ClientID (canaryConfig (ps (journal.fresh fake.all_succeed))), Go.Itoa i) + 1)%N) /\
     (forall l : prometheus.Labels,
        (forall i, 0 <= i < 3 ->
           l <> (config.ClientID (canaryConfig (ps (journal.fresh fake.all_succeed))), Go.Itoa i)) ->
        prometheus.value (recordsProduced (metrics w')) l
        = prometheus.value (recordsProduced (metrics (journal.fresh fake.all_succeed))) l)).
Proof.
  assert (Hyp1 : 0 <= 3 <= Go.max_int)
    by (repeat split; by vm_compute).
  split; [exact Hyp1|].
  exact (Send_one_attempt_per_partition 3 (journal.fresh fake.all_succeed) Hyp1).
Defined.

Lemma Send_failure_isolation_witness :
  (0 <= 3 <= Go.max_int) /\
  (exists (w' : World (journal.Journal fake.Script)) (cs : list Call),
     Send 3 (journal.fresh fake.second_fails) = Returned tt w' /\
     Calls (env (journal.fresh fake.second_fails)) cs (env w') /\
     length (sends_of cs) = Z.to_nat 3 /\
     forall i, 0 <= i < 3 ->
       exists (msg : sarama.ProducerMessage) (err : Go.error),
         sends_of cs !! Z.to_nat i = Some (msg, err) /\
         sarama.Partition msg = Go.int32 i /\
         (i <= Go.max_int32 -> sarama.Partition msg = i) /\
         prometheus.value (recordsProduced (metrics w'))
           (config.ClientID (canaryConfig (ps (journal.fresh fake.second_fails))), Go.Itoa i)
         = (prometheus.value (recordsProduced (metrics (journal.fresh fake.second_fails)))
              (config.ClientID (canaryConfig (ps (journal.fresh fake.second_fails))), Go.Itoa i) + 1)%N /\
         prometheus.value (recordsProducedFailed (metrics w'))
           (config.ClientID (canaryConfig (ps (journal.fresh fake.second_fails))), Go.Itoa i)
         = (prometheus.value (recordsProducedFailed (metrics (journal.fresh fake.second_fails)))
              (config.ClientID (canaryConfig (ps (journal.fresh fake.second_fails))), Go.Itoa i)
            + match err with Some _ => 1 | None => 0 end)%N).
Proof.
  assert (Hyp1 : 0 <= 3 <= Go.max_int)
    by (repeat split; by vm_compute).
  split; [exact Hyp1|].
  exact (Send_failure_isolation 3 (journal.fresh fake.second_fails) Hyp1).
Defined.

Lemma sequence_numbers_consecutive_witness :
  NewProducerService fake.cfg (fake.fresh fake.all_succeed)
    = Returned tt (fake.fresh fake.all_succeed) /\
  0 <= 2 /\
  Z.of_nat 1 + 2 <= Go.max_int /\
  exists (cms : list CanaryMessage) (w1 w2 : World fake.Script)
         (ats : list Attempt),
    newCanaryMessages 1 (fake.fresh fake.all_succeed) = Returned cms w1 /\
    MessageID <$> cms = seqZ 1 (Z.of_nat 1) /\
    Send 2 w1 = Returned tt w2 /\
    trace w2 = trace w1 ++ concat (att_events "__strimzi_canary" <$> ats) /\
    (fun a => MessageID (att_cm a)) <$> ats = seqZ (Z.of_nat 1 + 1) 2.
Proof.
  assert (Hnew : NewProducerService fake.cfg (fake.fresh fake.all_succeed)
                 = Returned tt (fake.fresh fake.all_succeed))
    by (vm_compute; reflexivity).
  split; [exact Hnew|]. split; [lia|]. split; [by vm_compute|].
  apply (sequence_numbers_consecutive fake.cfg
           (fake.fresh fake.all_succeed) (fake.fresh fake.all_succeed) 1 2 Hnew).
  - lia.
  - by vm_compute.
Defined.

Lemma Close_twice_witness :
  Close (fake.fresh fake.quiet)
    = Returned tt
        {| ps := ps (fake.fresh fake.quiet);
           metrics := fake.no_metrics;
           env := fake.quiet;
           trace := [ELog LogClosing; EClose None; ELog LogClosed] |} /\
  (sarama.Close (env (fake.fresh fake.quiet))).1 = None /\
  exists w2 : World fake.Script,
    Close {| ps := ps (fake.fresh fake.quiet);
             metrics := fake.no_metrics;
             env := fake.quiet;
             trace := [ELog LogClosing; EClose None; ELog LogClosed] |}
      = Returned tt w2 /\
    trace w2 =
      [ELog LogClosing; EClose None; ELog LogClosed] ++
      [ELog LogClosing; EClose None; ELog LogClosed].
Proof.
  assert (Hfirst :
    Close (fake.fresh fake.quiet)
    = Returned tt
        {| ps := ps (fake.fresh fake.quiet);
           metrics := fake.no_metrics;
           env := fake.quiet;
           trace := [ELog LogClosing; EClose None; ELog LogClosed] |})
    by (vm_compute; reflexivity).
  split; [exact Hfirst|].
  exact (Close_twice (fake.fresh fake.quiet) _ Hfirst).
Defined.

(** ** Inputs at which the statements of the specification fail *)

(** C1 as stated fails for 2^31 + 1 partitions: the partitions of the
    [SendMessage] calls in the journal of the environment are not
    0, 1, ..., 2^31, because the call of turn 2^31 is for partition
    -2^31. *)
Lemma Send_2147483649_partitions_not_in_order :
  ~ exists w' : World (journal.Journal fake.Script),
      Send 2147483649 (journal.fresh fake.quiet) = Returned tt w' /\
      (fun s => sarama.Partition s.1) <$> sends_of (journal.calls (env w'))
      = seqZ 0 2147483649.
Proof.
  intros (w' & Hsend & Hparts).
  assert (Hmax : 2147483649 <= Go.max_int).
  { unfold Go.max_int. rewrite pow2_63. lia. }
  destruct (Send_journal 2147483649 (journal.fresh fake.quiet) Hmax)
    as (w'' & ats & Hsend' & Hj & Hats & _).
  rewrite Hsend in Hsend'. injection Hsend' as <-.
  rewrite Hj in Hparts. cbn [journal.fresh env journal.calls app] in Hparts.
  rewrite sends_of_turns, <- list_fmap_compose in Hparts.
  apply (int32_seqZ_wrap 2147483649); [rewrite pow2_31; lia|].
  rewrite <- Hparts at 2. rewrite <- Hats, <- list_fmap_compose.
  apply list_fmap_ext. intros _ a _. reflexivity.
Qed.

(** C4 as stated fails for 2^31 + 1 partitions with a broker client that
    fails partition 0 only: the first [SendMessage] call in the journal
    is answered with an error, the calls go on after it, and yet none of
    them is for partition 2^31. *)
Lemma Send_2147483649_skips_a_partition :
  exists w' : World (journal.Journal fake.Script),
    Send 2147483649 (journal.fresh fake.first_fails) = Returned tt w' /\
    (exists (msg : sarama.ProducerMessage) (e : string),
       sends_of (journal.calls (env w')) !! 0%nat = Some (msg, Some e)) /\
    length (sends_of (journal.calls (env w'))) = Z.to_nat 2147483649 /\
    ~ forall i, 0 <= i < 2147483649 ->
        exists (msg : sarama.ProducerMessage) (err : Go.error),
          (msg, err) ∈ sends_of (journal.calls (env w')) /\
          sarama.Partition msg = i.
Proof.
  assert (Hmax : 2147483649 <= Go.max_int).
  { unfold Go.max_int. rewrite pow2_63. lia. }
  destruct (Send_journal 2147483649 (journal.fresh fake.first_fails) Hmax)
    as (w' & ats & Hsend & Hj & Hats & Hhead).
  cbn [journal.fresh env journal.calls app] in Hj.
  exists w'. split; [done|]. rewrite Hj, sends_of_turns. split; [|split].
  - rewrite list_lookup_fmap, Hhead by lia. simpl. by eexists _, _.
  - rewrite length_fmap. by apply turns_length.
  - intros Hall. destruct (Hall 2147483648) as (msg & err & Hin & Hp); [lia|].
    apply list_elem_of_fmap in Hin as (a & [= -> ->] & _). simpl in Hp.
    pose proof (int32_range (att_i a)) as Hr.
    unfold Go.max_int32 in Hr. rewrite pow2_31 in Hr. lia.
Qed.

(** C2 as stated fails at the 2^63-th call of the factory on a service
    just created: the sequence numbers of 2^63 calls in a row are not
    1, 2, ..., 2^63, because the last one is -2^63. *)
Lemma sequence_numbers_wrap_after_max_int :
  NewProducerService fake.cfg (fake.fresh fake.quiet)
    = Returned tt (fake.fresh fake.quiet) /\
  ~ exists (cms : list CanaryMessage) (w' : World fake.Script),
      newCanaryMessages (Z.to_nat (2 ^ 63)) (fake.fresh fake.quiet)
        = Returned cms w' /\
      MessageID <$> cms = seqZ 1 (2 ^ 63).
Proof.
  split; [vm_compute; reflexivity|].
  apply newCanaryMessages_wrap; [reflexivity|].
  apply Z2Nat.id. lia.
Qed.

(** C6 as stated fails with a producer that answers a second [Close]
    with an error: the first [Close] returns, the second ends the process
    with status 1. *)
Lemma Close_second_call_exits :
  exists w1 w2 : World fake.Script,
    Close (fake.fresh fake.closes_once) = Returned tt w1 /\
    Close w1 = Exited 1 w2.
Proof.
  eexists _, _. split; vm_compute; reflexivity.
Qed.

(** * Further properties of the service *)

(** ** Metric vectors under a list of turns, as a relation *)

Section Relations.

Import prometheus.

(** A relation between metric vectors that is reflexive, transitive and
    established by every single turn of a list holds across the list. *)
Lemma turns_rel (R : Metrics -> Metrics -> Prop) (Q : Attempt -> Prop)
    (ats : list Attempt) (m : Metrics) :
  (forall m0, R m0 m0) ->
  (forall m1 m2 m3, R m1 m2 -> R m2 m3 -> R m1 m3) ->
  (forall a m0, Q a -> R m0 (att_metrics a m0)) ->
  Forall Q ats ->
  R m (foldl (fun m a => att_metrics a m) m ats).
Proof.
  intros Hrefl Htrans Hstep. revert m.
  induction ats as [|a ats IH]; intros m Hall; [apply Hrefl|].
  apply Forall_cons in Hall as [Ha Hall]. cbn [foldl].
  eapply Htrans; [by apply Hstep|]. by apply IH.
Qed.

(** What one turn does at arbitrary labels [l]. *)
Lemma att_metrics_at (a : Attempt) (m : Metrics) (l : Labels) :
  let hit := if decide (att_labels a = l) then 1%N else 0%N in
  value (recordsProduced (att_metrics a m)) l
    = (value (recordsProduced m) l + hit)%N /\
  value (recordsProducedFailed (att_metrics a m)) l
    = (value (recordsProducedFailed m) l
       + match att_err a with Some _ => hit | None => 0 end)%N /\
  samples (recordsProducedLatency (att_metrics a m)) l
    = samples (recordsProducedLatency m) l
      ++ match att_err a with
         | Some _ => []
         | None =>
             if decide (att_labels a = l)
             then [Go.float64 (att_duration a)] else []
         end.
Proof.
  cbv zeta. destruct (decide (att_labels a = l)) as [<-|Hne].
  - destruct (att_metrics_hit a m) as (-> & -> & ->).
    destruct (att_err a); simpl; done.
  - destruct (att_metrics_miss a m l Hne) as (-> & -> & ->). simpl.
    destruct (att_err a); simpl; by rewrite ?N.add_0_r, ?app_nil_r.
Qed.

(** Produced = failed + observed, as increments, at all labels. *)
Lemma turns_balance (ats : list Attempt) (m : Metrics) (l : Labels) :
  let m' := foldl (fun m a => att_metrics a m) m ats in
  (value (recordsProduced m') l
   + value (recordsProducedFailed m) l
   + N.of_nat (length (samples (recordsProducedLatency m) l)))%N
  = (value (recordsProduced m) l
     + value (recordsProducedFailed m') l
     + N.of_nat (length (samples (recordsProducedLatency m') l)))%N.
Proof.
  cbv zeta.
  apply (turns_rel
    (fun m1 m2 =>
       (value (recordsProduced m2) l
        + value (recordsProducedFailed m1) l
        + N.of_nat (length (samples (recordsProducedLatency m1) l)))%N
       = (value (recordsProduced m1) l
          + value (recordsProducedFailed m2) l
          + N.of_nat (length (samples (recordsProducedLatency m2) l)))%N)
    (fun _ => True)).
  - intros m0. lia.
  - intros m1 m2 m3 H12 H23. lia.
  - intros a m0 _. destruct (att_metrics_at a m0 l) as (-> & -> & ->).
    rewrite length_app.
    destruct (att_err a), (decide (att_labels a = l)); simpl; lia.
  - by apply Forall_true.
Qed.

(** New samples are appended, and each of them comes from a turn. *)
Lemma turns_samples (P : Z -> Prop) (ats : list Attempt) (m : Metrics)
    (l : Labels) :
  Forall (fun a => att_err a = None -> P (Go.float64 (att_duration a))) ats ->
  let m' := foldl (fun m a => att_metrics a m) m ats in
  (value (recordsProduced m) l <= value (recordsProduced m') l)%N /\
  (value (recordsProducedFailed m) l <= value (recordsProducedFailed m') l)%N /\
  exists new : list Z,
    samples (recordsProducedLatency m') l
      = samples (recordsProducedLatency m) l ++ new /\
    Forall P new.
Proof.
  intros Hall. cbv zeta.
  apply (turns_rel
    (fun m1 m2 =>
       (value (recordsProduced m1) l <= value (recordsProduced m2) l)%N /\
       (value (recordsProducedFailed m1) l
        <= value (recordsProducedFailed m2) l)%N /\
       exists new : list Z,
         samples (recordsProducedLatency m2) l
           = samples (recordsProducedLatency m1) l ++ new /\
         Forall P new)
    (fun a => att_err a = None -> P (Go.float64 (att_duration a)))); [| | |done].
  - intros m0. split; [lia|]. split; [lia|].
    exists []. by rewrite app_nil_r.
  - intros m1 m2 m3 (Hp1 & Hf1 & new1 & Hs1 & HP1) (Hp2 & Hf2 & new2 & Hs2 & HP2).
    split; [lia|]. split; [lia|]. exists (new1 ++ new2).
    split; [by rewrite Hs2, Hs1, app_assoc|]. by apply Forall_app.
  - intros a m0 Ha. destruct (att_metrics_at a m0 l) as (-> & -> & ->).
    split; [lia|]. split; [lia|]. eexists. split; [done|].
    destruct (att_err a); [done|].
    destruct (decide (att_labels a = l)); [|done].
    apply Forall_singleton. by apply Ha.
Qed.

(** Turns whose sends all succeed leave the failed vector alone, child
    for child; turns whose sends all fail leave the latency vector
    alone; and no turn changes the bucket bounds. *)
Lemma turns_untouched (ats : list Attempt) (m : Metrics) :
  let m' := foldl (fun m a => att_metrics a m) m ats in
  (Forall (fun a => att_err a = None) ats ->
   recordsProducedFailed m' = recordsProducedFailed m) /\
  (Forall (fun a => att_err a <> None) ats ->
   recordsProducedLatency m' = recordsProducedLatency m) /\
  Buckets (recordsProducedLatency m') = Buckets (recordsProducedLatency m).
Proof.
  cbv zeta. split; [|split].
  - apply (turns_rel
      (fun m1 m2 => recordsProducedFailed m2 = recordsProducedFailed m1)
      (fun a => att_err a = None)); [done|congruence|].
    intros a m0 Ha. unfold att_metrics. simpl. by rewrite Ha.
  - apply (turns_rel
      (fun m1 m2 => recordsProducedLatency m2 = recordsProducedLatency m1)
      (fun a => att_err a <> None)); [done|congruence|].
    intros a m0 Ha. unfold att_metrics. simpl. by destruct (att_err a).
  - apply (turns_rel
      (fun m1 m2 => Buckets (recordsProducedLatency m2)
                    = Buckets (recordsProducedLatency m1))
      (fun _ => True)); [done|congruence| |by apply Forall_true].
    intros a m0 _. unfold att_metrics. simpl. by destruct (att_err a).
Qed.

End Relations.

(** ** More on [Send] *)

Section MoreSend.

Context {E : Type}.
Context `{!sarama.Client E, !sarama.SyncProducer E, !time.Clock E}.

Implicit Types (w : World E) (n : Z) (topic : string).

(** The events of turns are clock readings, log entries and sends. *)
Lemma turns_events_kind topic (ats : list Attempt) (ev : Event) :
  ev ∈ concat (att_events topic <$> ats) ->
  match ev with
  | ENow _ | ELog _ | ESendMessage _ _ _ _ => True
  | ERefreshMetadata _ _ | EClose _ => False
  end.
Proof.
  induction ats as [|a ats IH]; cbn [fmap list_fmap concat].
  - by intros ?%elem_of_nil.
  - intros [Hin|Hin]%elem_of_app; [|by apply IH].
    unfold att_events in Hin.
    repeat (apply elem_of_cons in Hin as [->|Hin]; [done|]).
    by apply elem_of_nil in Hin.
Qed.

Lemma run_index_range topic (l : list Z) w :
  Go.min_int <= index (ps w) <= Go.max_int ->
  Go.min_int <= index (ps (run topic l w).2) <= Go.max_int.
Proof.
  revert w. induction l as [|i l IH]; intros w Hw; [done|].
  rewrite run_cons. cbn [snd]. apply IH.
  rewrite after_attempt_index. apply int64_range.
Qed.

(** The sequence counter after [Send], for a counter that is an [int]. *)
Lemma Send_index_after n w (w' : World E) :
  Go.min_int <= index (ps w) <= Go.max_int ->
  n <= Go.max_int ->
  Send n w = Returned tt w' ->
  index (ps w') = Go.int (index (ps w) + Z.max 0 n).
Proof.
  intros Hw Hn Hsend. rewrite Send_run in Hsend by done.
  injection Hsend as <-.
  rewrite <- (int_small (index (ps (run _ _ w).2)))
    by by apply run_index_range.
  rewrite run_index, length_seqZ. f_equal. lia.
Qed.

End MoreSend.

(** ** Statements about the methods *)

Section Extras.

Context {E : Type}.
Context `{!sarama.Client E, !sarama.SyncProducer E, !time.Clock E}.

Implicit Types (w : World E) (n : Z).

(** X1.  What [Send] asks of its surroundings, and what it never asks:
    it makes exactly three calls on the environment per partition, two
    readings of the clock and one [SendMessage], and it never calls
    [RefreshMetadata], [Close] or [NewSyncProducerFromClient]. *)
Theorem Send_calls_shape n w :
  n <= Go.max_int ->
  exists (w' : World E) (cs : list Call),
    Send n w = Returned tt w' /\
    Calls (env w) cs (env w') /\
    length cs = (3 * Z.to_nat n)%nat /\
    length (reads_of cs) = (2 * Z.to_nat n)%nat /\
    length (sends_of cs) = Z.to_nat n /\
    (forall (topic : string) (err : Go.error),
       CRefreshMetadata topic err ∉ cs) /\
    (forall err : Go.error, CClose err ∉ cs) /\
    (forall err : Go.error, CNewSyncProducerFromClient err ∉ cs).
Proof.
  intros Hn.
  destruct (Send_turns_env n w Hn)
    as (ats & w' & Hsend & Hcalls & Hats & _).
  pose proof (turns_length n ats Hats) as Hlen.
  exists w', (concat (att_calls (config.Topic (canaryConfig (ps w))) <$> ats)).
  destruct (turns_calls_length (config.Topic (canaryConfig (ps w))) ats)
    as [Hl1 Hl2].
  split; [done|]. split; [done|].
  split; [by rewrite Hl1, Hlen|]. split; [by rewrite Hl2, Hlen|].
  split; [by rewrite sends_of_turns, length_fmap|].
  repeat split; intros; intros Hin; by apply turns_calls_kind in Hin.
Qed.

(** X3.  [Send] keeps the books balanced: at all labels, the produced
    counter has gone up by as much as the failed counter and the number
    of latency samples together. *)
Theorem Send_metrics_balance n w :
  n <= Go.max_int ->
  exists w' : World E,
    Send n w = Returned tt w' /\
    forall l : prometheus.Labels,
      (prometheus.value (recordsProduced (metrics w')) l
       + prometheus.value (recordsProducedFailed (metrics w)) l
       + N.of_nat
           (length (prometheus.samples (recordsProducedLatency (metrics w)) l)))%N
      = (prometheus.value (recordsProduced (metrics w)) l
         + prometheus.value (recordsProducedFailed (metrics w')) l
         + N.of_nat
             (length
                (prometheus.samples (recordsProducedLatency (metrics w')) l)))%N.
Proof.
  intros Hn.
  destruct (Send_turns n w Hn)
    as (ats & w' & Hsend & _ & _ & _ & _ & Hm & _).
  exists w'. split; [done|]. intros l. rewrite Hm. apply turns_balance.
Qed.

(** X4.  [Send] only ever adds: no counter goes down, the samples a
    histogram child had are still there in front of the new ones, and
    every new sample lies within 18446744073708 ms of zero, the largest
    difference of two millisecond stamps. *)
Theorem Send_metrics_grow n w :
  n <= Go.max_int ->
  exists w' : World E,
    Send n w = Returned tt w' /\
    forall l : prometheus.Labels,
      (prometheus.value (recordsProduced (metrics w)) l
       <= prometheus.value (recordsProduced (metrics w')) l)%N /\
      (prometheus.value (recordsProducedFailed (metrics w)) l
       <= prometheus.value (recordsProducedFailed (metrics w')) l)%N /\
      exists new : list Z,
        prometheus.samples (recordsProducedLatency (metrics w')) l
          = prometheus.samples (recordsProducedLatency (metrics w)) l ++ new /\
        Forall (fun v => - 18446744073708 <= v <= 18446744073708) new.
Proof.
  intros Hn.
  destruct (Send_turns n w Hn)
    as (ats & w' & Hsend & _ & _ & _ & _ & Hm & _ & Hk).
  exists w'. split; [done|]. intros l. rewrite Hm.
  apply turns_samples. apply Forall_lookup. intros k a Ha _.
  destruct (Hk k a Ha) as (_ & _ & Hcm & Hc & Hack).
  unfold att_duration. rewrite Hcm. simpl.
  rewrite latency_exact by done.
  pose proof (millis_range _ Hc). pose proof (millis_range _ Hack). lia.
Qed.

(** X5.  [Send] stays within its own labels: the three vectors are
    unchanged at all labels other than (clientid, [i]) for a partition
    [i] below [numPartitions], and the bucket bounds of the histogram
    are unchanged. *)
Theorem Send_metrics_frame n w :
  n <= Go.max_int ->
  exists w' : World E,
    Send n w = Returned tt w' /\
    prometheus.Buckets (recordsProducedLatency (metrics w'))
      = prometheus.Buckets (recordsProducedLatency (metrics w)) /\
    forall l : prometheus.Labels,
      (forall i, 0 <= i < n ->
         l <> (config.ClientID (canaryConfig (ps w)), Go.Itoa i)) ->
      prometheus.value (recordsProduced (metrics w')) l
        = prometheus.value (recordsProduced (metrics w)) l /\
      prometheus.value (recordsProducedFailed (metrics w')) l
        = prometheus.value (recordsProducedFailed (metrics w)) l /\
      prometheus.samples (recordsProducedLatency (metrics w')) l
        = prometheus.samples (recordsProducedLatency (metrics w)) l.
Proof.
  intros Hn.
  destruct (Send_turns n w Hn)
    as (ats & w' & Hsend & Hats & _ & _ & _ & Hm & _ & Hk).
  exists w'. split; [done|]. rewrite Hm.
  split; [apply turns_untouched|].
  intros l Hl. apply turns_miss.
  intros Hin. apply list_elem_of_fmap in Hin as (a & -> & Hin).
  apply list_elem_of_lookup in Hin as [k Ha].
  destruct (Hk k a Ha) as (_ & Hlab & _).
  apply (Hl (Z.of_nat k)); [|done].
  apply lookup_lt_Some in Ha. rewrite (turns_length n ats Hats) in Ha. lia.
Qed.

(** X6.  When the environment answers no [SendMessage] call of a [Send]
    with an error, the failed vector is left as it was, child for child:
    no series is created for a partition that never failed.  When it
    answers every call with an error, the latency vector is left as it
    was. *)
Theorem Send_untouched_vectors n w :
  n <= Go.max_int ->
  exists (w' : World E) (cs : list Call),
    Send n w = Returned tt w' /\
    Calls (env w) cs (env w') /\
    ((forall (msg : sarama.ProducerMessage) (err : Go.error),
        (msg, err) ∈ sends_of cs -> err = None) ->
     recordsProducedFailed (metrics w') = recordsProducedFailed (metrics w)) /\
    ((forall (msg : sarama.ProducerMessage) (err : Go.error),
        (msg, err) ∈ sends_of cs -> err <> None) ->
     recordsProducedLatency (metrics w') = recordsProducedLatency (metrics w)).
Proof.
  intros Hn.
  destruct (Send_turns_env n w Hn)
    as (ats & w' & Hsend & Hcalls & _ & _ & Hm & _).
  exists w', (concat (att_calls (config.Topic (canaryConfig (ps w))) <$> ats)).
  split; [done|]. split; [done|]. rewrite Hm, sends_of_turns.
  destruct (turns_untouched ats (metrics w)) as (Hf & Hl & _).
  split; intros Hall; [apply Hf|apply Hl]; apply Forall_forall; intros a Ha;
    apply (Hall (att_msg (config.Topic (canaryConfig (ps w))) a));
    apply list_elem_of_fmap; by exists a.
Qed.

(** X7.  [Send] moves the sequence counter on by the number of
    partitions (by nothing for a negative argument), wrapping as an
    [int], and keeps the configuration of the service. *)
Theorem Send_advances_index n w :
  Go.min_int <= index (ps w) <= Go.max_int ->
  n <= Go.max_int ->
  exists w' : World E,
    Send n w = Returned tt w' /\
    canaryConfig (ps w') = canaryConfig (ps w) /\
    index (ps w') = Go.int (index (ps w) + Z.max 0 n) /\
    (index (ps w) + Z.max 0 n <= Go.max_int ->
     index (ps w') = index (ps w) + Z.max 0 n).
Proof.
  intros Hw Hn.
  destruct (Send_turns n w Hn) as (ats & w' & Hsend & _ & Hcfg & _).
  exists w'. split; [done|]. split; [done|].
  pose proof (Send_index_after n w w' Hw Hn Hsend) as Hidx.
  split; [done|]. intros Hfit. rewrite Hidx. apply int_small. lia.
Qed.

(** X8.  Two calls of [Send] in a row share one sequence: the messages
    handed to [SendMessage] by the first call and then by the second
    carry, in the order of the calls, the sequence numbers that follow
    the counter the first call started from, one by one, as long as they
    stay within the [int] range. *)
Theorem Send_twice_sequence (n1 n2 : Z) w :
  Go.min_int <= index (ps w) ->
  0 <= n1 <= Go.max_int ->
  0 <= n2 <= Go.max_int ->
  index (ps w) + n1 + n2 <= Go.max_int ->
  exists (w1 w2 : World E) (cs1 cs2 : list Call),
    Send n1 w = Returned tt w1 /\
    Send n2 w1 = Returned tt w2 /\
    Calls (env w) cs1 (env w1) /\
    Calls (env w1) cs2 (env w2) /\
    length (sends_of (cs1 ++ cs2)) = Z.to_nat (n1 + n2) /\
    forall (k : nat) (msg : sarama.ProducerMessage) (err : Go.error),
      sends_of (cs1 ++ cs2) !! k = Some (msg, err) ->
      exists ts : Z,
        sarama.Value msg =
        Some (Json {| ProducerID := config.ClientID (canaryConfig (ps w));
                      MessageID := index (ps w) + Z.of_nat k + 1;
                      Timestamp := ts |}).
Proof.
  intros Hlo [Hn1 Hm1] [Hn2 Hm2] Hhi.
  assert (Hw : Go.min_int <= index (ps w) <= Go.max_int) by lia.
  destruct (Send_turns_env n1 w Hm1)
    as (ats1 & w1 & Hsend1 & Hcalls1 & Hats1 & Hcfg1 & _ & _ & Hk1).
  destruct (Send_turns_env n2 w1 Hm2)
    as (ats2 & w2 & Hsend2 & Hcalls2 & Hats2 & _ & _ & _ & Hk2).
  pose proof (Send_index_after n1 w w1 Hw Hm1 Hsend1) as Hidx.
  rewrite Z.max_r, int_small in Hidx by lia.
  pose proof (turns_length n1 ats1 Hats1) as Hlen1.
  pose proof (turns_length n2 ats2 Hats2) as Hlen2.
  eexists w1, w2, _, _.
  split; [done|]. split; [done|]. split; [exact Hcalls1|].
  split; [exact Hcalls2|].
  rewrite sends_of_app, !sends_of_turns. split.
  { rewrite length_app, !length_fmap, Hlen1, Hlen2. lia. }
  intros k msg err Hl. apply lookup_app_Some in Hl as [Hl|[Hge Hl]];
    rewrite list_lookup_fmap in Hl.
  - destruct (ats1 !! k) as [a|] eqn:Ha; [|done].
    simpl in Hl. injection Hl as <- <-.
    destruct (Hk1 k a Ha) as (_ & _ & Hcm & _).
    apply lookup_lt_Some in Ha.
    exists (Go.div (att_created a) 1000000). simpl. rewrite Hcm.
    do 3 f_equal. apply int_small. lia.
  - rewrite length_fmap in Hge, Hl.
    destruct (ats2 !! (k - length ats1)%nat) as [a|] eqn:Ha; [|done].
    simpl in Hl. injection Hl as <- <-.
    destruct (Hk2 _ a Ha) as (_ & _ & Hcm & _).
    apply lookup_lt_Some in Ha.
    exists (Go.div (att_created a) 1000000). simpl.
    rewrite Hcm, Hcfg1. do 3 f_equal.
    rewrite Hidx, int_small by lia. lia.
Qed.

(** X9.  [Close] hands over to [Close] of the sync producer once and
    ends in one of two ways: when that call returns an error, the error
    is logged and the process exits with status 1, without the closing
    log line; otherwise [Close] returns after the closing log line.
    Either way the service and the metric vectors are as before. *)
Theorem Close_outcome w :
  exists w' : World E,
    ps w' = ps w /\
    metrics w' = metrics w /\
    env w' = (sarama.Close (env w)).2 /\
    match (sarama.Close (env w)).1 with
    | Some e =>
        Close w = Exited 1 w' /\
        trace w' =
          trace w ++ [ELog LogClosing; EClose (Some e); ELog (LogCloseError e)]
    | None =>
        Close w = Returned tt w' /\
        trace w' = trace w ++ [ELog LogClosing; EClose None; ELog LogClosed]
    end.
Proof.
  unfold Close. run_M.
  destruct (sarama.Close (env w)) as [[e|] env']; simpl.
  - exists {| ps := ps w; metrics := metrics w; env := env';
              trace := trace w ++ [ELog LogClosing; EClose (Some e);
                                   ELog (LogCloseError e)] |}.
    repeat split. by rewrite <- !app_assoc.
  - exists {| ps := ps w; metrics := metrics w; env := env';
              trace := trace w ++ [ELog LogClosing; EClose None;
                                   ELog LogClosed] |}.
    repeat split. unfold emit. simpl. by rewrite <- !app_assoc.
Qed.

(** X10.  [NewProducerService] first replaces the latency vector by a
    new, empty one with the configured bucket bounds, leaving the two
    counter vectors alone, and then builds the sync producer.  When that
    fails, the error is logged and the call panics with it, and the
    service is as before; otherwise the call returns a service for the
    given configuration whose sequence counter is 0. *)
Theorem NewProducerService_outcome (cfg : config.CanaryConfig) w :
  exists w' : World E,
    metrics w' =
      {| recordsProduced := recordsProduced (metrics w);
         recordsProducedFailed := recordsProducedFailed (metrics w);
         recordsProducedLatency :=
           prometheus.NewHistogramVec (config.ProducerLatencyBuckets cfg) |} /\
    (forall l : prometheus.Labels,
       prometheus.samples (recordsProducedLatency (metrics w')) l = []) /\
    env w' = (sarama.NewSyncProducerFromClient (env w)).2 /\
    match (sarama.NewSyncProducerFromClient (env w)).1 with
    | Some e =>
        NewProducerService cfg w = Panicked e w' /\
        ps w' = ps w /\
        trace w' = trace w ++ [ELog (LogCreateError e)]
    | None =>
        NewProducerService cfg w = Returned tt w' /\
        ps w' = {| canaryConfig := cfg; index := 0 |} /\
        trace w' = trace w
    end.
Proof.
  unfold NewProducerService. run_M.
  destruct (sarama.NewSyncProducerFromClient (env w)) as [[e|] env']; simpl.
  - eexists {| ps := ps w; metrics := _; env := env';
               trace := trace w ++ [ELog (LogCreateError e)] |}.
    repeat split.
  - eexists {| ps := {| canaryConfig := cfg; index := 0 |}; metrics := _;
               env := env'; trace := trace w |}.
    repeat split.
Qed.

Lemma Refresh_frame w :
  exists (w' : World E) (evs : list Event),
    Refresh w = Returned tt w' /\
    ps w' = ps w /\
    metrics w' = metrics w /\
    trace w' = trace w ++ evs /\
    sent evs = [] /\
    forall err : Go.error, EClose err ∉ evs.
Proof.
  unfold Refresh. run_M.
  destruct (sarama.RefreshMetadata _ (env w)) as [[e|] env']; simpl;
    eexists _, _; (split; [reflexivity|]); simpl;
    rewrite <- ?app_assoc; simpl; (repeat split);
    intros err Hin;
    repeat (apply elem_of_cons in Hin as [?|Hin]; [done|]);
    by apply elem_of_nil in Hin.
Qed.

(** X11.  In steady state nothing ends the process and the books stay
    balanced: every sequence of [Send] and [Refresh] calls returns
    normally, never calls [Close], keeps the configuration, and if the
    produced counter equalled the failed counter plus the number of
    latency samples at all labels before, it does so after. *)
Theorem steady_state_invariant (ss : list Step) w :
  Forall (fun s => match s with
                   | StepSend numPartitions => numPartitions <= Go.max_int
                   | StepRefresh => True
                   end) ss ->
  (forall l : prometheus.Labels,
     prometheus.value (recordsProduced (metrics w)) l
     = (prometheus.value (recordsProducedFailed (metrics w)) l
        + N.of_nat
            (length (prometheus.samples (recordsProducedLatency (metrics w)) l)))%N) ->
  exists (w' : World E) (evs : list Event),
    steps ss w = Returned tt w' /\
    canaryConfig (ps w') = canaryConfig (ps w) /\
    trace w' = trace w ++ evs /\
    (forall err : Go.error, EClose err ∉ evs) /\
    forall l : prometheus.Labels,
      prometheus.value (recordsProduced (metrics w')) l
      = (prometheus.value (recordsProducedFailed (metrics w')) l
         + N.of_nat
             (length
                (prometheus.samples (recordsProducedLatency (metrics w')) l)))%N.
Proof.
  revert w. induction ss as [|s ss IH]; intros w Hfit Hbal.
  - exists w, []. repeat split; [by rewrite app_nil_r| |done].
    intros err. apply not_elem_of_nil.
  - apply Forall_cons in Hfit as [Hs Hfit]. destruct s as [n|].
    + destruct (Send_turns n w Hs)
        as (ats & w1 & Hsend & _ & Hcfg & _ & Htr & Hm & _).
      destruct (IH w1 Hfit) as (w' & evs & Hsteps & Hcfg' & Htr' & Hcl & Hbal').
      { intros l. pose proof (turns_balance ats (metrics w) l) as Hb.
        cbv zeta in Hb. rewrite <- Hm in Hb. specialize (Hbal l). lia. }
      eexists w', (_ ++ evs). cbn [steps]. unfold mbind, M_bind, bind.
      rewrite Hsend. split; [done|]. split; [congruence|].
      split; [by rewrite Htr', Htr, app_assoc|]. split; [|done].
      intros err [Hin|Hin]%elem_of_app; [|by apply (Hcl err)].
      by apply turns_events_kind in Hin.
    + destruct (Refresh_frame w) as (w1 & evs1 & Hr & Hps & Hm & Htr & _ & Hcl1).
      destruct (IH w1 Hfit) as (w' & evs & Hsteps & Hcfg' & Htr' & Hcl & Hbal').
      { intros l. rewrite Hm. apply Hbal. }
      eexists w', (evs1 ++ evs). cbn [steps]. unfold mbind, M_bind, bind.
      rewrite Hr. split; [done|]. split; [congruence|].
      split; [by rewrite Htr', Htr, app_assoc|]. split; [|done].
      intros err [Hin|Hin]%elem_of_app; [by apply (Hcl1 err)|by apply (Hcl err)].
Qed.

Lemma turns_of_nonneg (ss : list Step) : 0 <= turns_of ss.
Proof. induction ss as [|[n|] ss IH]; simpl; lia. Qed.

(** X12.  The sequence counter counts every message ever sent: after
    any sequence of [Send] and [Refresh] calls it stands at its old value
    plus the number of [SendMessage] calls made, wrapped as an [int];
    [Refresh] and a [Send] for no partitions add nothing. *)
Theorem steady_state_sequence (ss : list Step) w :
  Go.min_int <= index (ps w) <= Go.max_int ->
  Forall (fun s => match s with
                   | StepSend numPartitions => numPartitions <= Go.max_int
                   | StepRefresh => True
                   end) ss ->
  exists (w' : World E) (evs : list Event),
    steps ss w = Returned tt w' /\
    trace w' = trace w ++ evs /\
    length (sent evs) = Z.to_nat (turns_of ss) /\
    index (ps w') = Go.int (index (ps w) + turns_of ss).
Proof.
  revert w. induction ss as [|s ss IH]; intros w Hw Hfit.
  - exists w, []. repeat split; [by rewrite app_nil_r|].
    simpl. rewrite Z.add_0_r. symmetry. by apply int_small.
  - apply Forall_cons in Hfit as [Hs Hfit].
    pose proof (turns_of_nonneg ss) as Hnn. destruct s as [n|].
    + destruct (Send_turns n w Hs)
        as (ats & w1 & Hsend & Hats & _ & _ & Htr & _).
      pose proof (Send_index_after n w w1 Hw Hs Hsend) as Hidx.
      destruct (IH w1) as (w' & evs & Hsteps & Htr' & Hlen & Hidx');
        [rewrite Hidx; apply int64_range|done|].
      eexists w', (_ ++ evs). cbn [steps turns_of].
      unfold mbind, M_bind, bind. rewrite Hsend.
      split; [done|]. split; [by rewrite Htr', Htr, app_assoc|]. split.
      * rewrite sent_app, sent_turns, length_app, length_fmap, Hlen.
        rewrite (turns_length n ats Hats). lia.
      * rewrite Hidx', Hidx, int_add_wrap. f_equal. lia.
    + destruct (Refresh_frame w) as (w1 & evs1 & Hr & Hps & _ & Htr & Hs1 & _).
      destruct (IH w1) as (w' & evs & Hsteps & Htr' & Hlen & Hidx');
        [by rewrite Hps|done|].
      eexists w', (evs1 ++ evs). cbn [steps turns_of].
      unfold mbind, M_bind, bind. rewrite Hr.
      split; [done|]. split; [by rewrite Htr', Htr, app_assoc|]. split.
      * by rewrite sent_app, Hs1.
      * by rewrite Hidx', Hps.
Qed.

End Extras.

(** ** These statements at concrete inputs *)

Lemma fresh_is_balanced (sc : fake.Script) (l : prometheus.Labels) :
  prometheus.value (recordsProduced (metrics (fake.fresh sc))) l
  = (prometheus.value (recordsProducedFailed (metrics (fake.fresh sc))) l
     + N.of_nat
         (length
            (prometheus.samples
               (recordsProducedLatency (metrics (fake.fresh sc))) l)))%N.
Proof.
  unfold prometheus.value, prometheus.samples. simpl.
  by rewrite !lookup_empty.
Qed.

Lemma Send_metrics_balance_witness :
  (3 <= Go.max_int) /\
  (exists w' : World fake.Script,
     Send 3 (fake.fresh fake.second_fails) = Returned tt w' /\
     forall l : prometheus.Labels,
       (prometheus.value (recordsProduced (metrics w')) l
        + prometheus.value (recordsProducedFailed (metrics (fake.fresh fake.second_fails))) l
        + N.of_nat
            (length (prometheus.samples (recordsProducedLatency (metrics (fake.fresh fake.second_fails))) l)))%N
       = (prometheus.value (recordsProduced (metrics (fake.fresh fake.second_fails))) l
          + prometheus.value (recordsProducedFailed (metrics w')) l
          + N.of_nat
              (length
                 (prometheus.samples (recordsProducedLatency (metrics w')) l)))%N).
Proof.
  assert (Hyp1 : 3 <= Go.max_int)
    by (repeat split; by vm_compute).
  split; [exact Hyp1|].
  exact (Send_metrics_balance 3 (fake.fresh fake.second_fails) Hyp1).
Defined.

Lemma Send_metrics_grow_witness :
  (2 <= Go.max_int) /\
  (exists w' : World fake.Script,
     Send 2 (fake.fresh fake.skewed) = Returned tt w' /\
     forall l : prometheus.Labels,
       (prometheus.value (recordsProduced (metrics (fake.fresh fake.skewed))) l
        <= prometheus.value (recordsProduced (metrics w')) l)%N /\
       (prometheus.value (recordsProducedFailed (metrics (fake.fresh fake.skewed))) l
        <= prometheus.value (recordsProducedFailed (metrics w')) l)%N /\
       exists new : list Z,
         prometheus.samples (recordsProducedLatency (metrics w')) l
           = prometheus.samples (recordsProducedLatency (metrics (fake.fresh fake.skewed))) l ++ new /\
         Forall (fun v => - 18446744073708 <= v <= 18446744073708) new).
Proof.
  assert (Hyp1 : 2 <= Go.max_int)
    by (repeat split; by vm_compute).
  split; [exact Hyp1|].
  exact (Send_metrics_grow 2 (fake.fresh fake.skewed) Hyp1).
Defined.

Lemma Send_metrics_frame_witness :
  (3 <= Go.max_int) /\
  (exists w' : World fake.Script,
     Send 3 (fake.fresh fake.all_succeed) = Returned tt w' /\
     prometheus.Buckets (recordsProducedLatency (metrics w'))
       = prometheus.Buckets (recordsProducedLatency (metrics (fake.fresh fake.all_succeed))) /\
     forall l : prometheus.Labels,
       (forall i, 0 <= i < 3 ->
          l <> (config.ClientID (canaryConfig (ps (fake.fresh fake.all_succeed))), Go.Itoa i)) ->
       prometheus.value (recordsProduced (metrics w')) l
         = prometheus.value (recordsProduced (metrics (fake.fresh fake.all_succeed))) l /\
       prometheus.value (recordsProducedFailed (metrics w')) l
         = prometheus.value (recordsProducedFailed (metrics (fake.fresh fake.all_succeed))) l /\
       prometheus.samples (recordsProducedLatency (metrics w')) l
         = prometheus.samples (recordsProducedLatency (metrics (fake.fresh fake.all_succeed))) l).
Proof.
  assert (Hyp1 : 3 <= Go.max_int)
    by (repeat split; by vm_compute).
  split; [exact Hyp1|].
  exact (Send_metrics_frame 3 (fake.fresh fake.all_succeed) Hyp1).
Defined.

Lemma Send_advances_index_witness :
  (Go.min_int <= index (ps (fake.fresh fake.quiet)) <= Go.max_int) /\
  (3 <= Go.max_int) /\
  (exists w' : World fake.Script,
     Send 3 (fake.fresh fake.quiet) = Returned tt w' /\
     canaryConfig (ps w') = canaryConfig (ps (fake.fresh fake.quiet)) /\
     index (ps w') = Go.int (index (ps (fake.fresh fake.quiet)) + Z.max 0 3) /\
     (index (ps (fake.fresh fake.quiet)) + Z.max 0 3 <= Go.max_int ->
      index (ps w') = index (ps (fake.fresh fake.quiet)) + Z.max 0 3)).
Proof.
  assert (Hyp1 : Go.min_int <= index (ps (fake.fresh fake.quiet)) <= Go.max_int)
    by (repeat split; by vm_compute).
  assert (Hyp2 : 3 <= Go.max_int)
    by (repeat split; by vm_compute).
  split; [exact Hyp1|].
  split; [exact Hyp2|].
  exact (Send_advances_index 3 (fake.fresh fake.quiet) Hyp1 Hyp2).
Defined.

Lemma steady_state_invariant_witness :
  (Forall (fun s => match s with
                      | StepSend numPartitions => numPartitions <= Go.max_int
                      | StepRefresh => True
                      end) [StepSend 2; StepRefresh; StepSend 1]) /\
  ((forall l : prometheus.Labels,
        prometheus.value (recordsProduced (metrics (fake.fresh fake.second_fails))) l
        = (prometheus.value (recordsProducedFailed (metrics (fake.fresh fake.second_fails))) l
           + N.of_nat
               (length (prometheus.samples (recordsProducedLatency (metrics (fake.fresh fake.second_fails))) l)))%N)) /\
  (exists (w' : World fake.Script) (evs : list Event),
     steps [StepSend 2; StepRefresh; StepSend 1] (fake.fresh fake.second_fails) = Returned tt w' /\
     canaryConfig (ps w') = canaryConfig (ps (fake.fresh fake.second_fails)) /\
     trace w' = trace (fake.fresh fake.second_fails) ++ evs /\
     (forall err : Go.error, EClose err ∉ evs) /\
     forall l : prometheus.Labels,
       prometheus.value (recordsProduced (metrics w')) l
       = (prometheus.value (recordsProducedFailed (metrics w')) l
          + N.of_nat
              (length
                 (prometheus.samples (recordsProducedLatency (metrics w')) l)))%N).
Proof.
  assert (Hyp1 : Forall (fun s => match s with
                      | StepSend numPartitions => numPartitions <= Go.max_int
                      | StepRefresh => True
                      end) [StepSend 2; StepRefresh; StepSend 1])
    by (repeat constructor; by vm_compute).
  assert (Hyp2 : (forall l : prometheus.Labels,
        prometheus.value (recordsProduced (metrics (fake.fresh fake.second_fails))) l
        = (prometheus.value (recordsProducedFailed (metrics (fake.fresh fake.second_fails))) l
           + N.of_nat
               (length (prometheus.samples (recordsProducedLatency (metrics (fake.fresh fake.second_fails))) l)))%N))
    by (intros l; apply fresh_is_balanced).
  split; [exact Hyp1|].
  split; [exact Hyp2|].
  exact (steady_state_invariant [StepSend 2; StepRefresh; StepSend 1] (fake.fresh fake.second_fails) Hyp1 Hyp2).
Defined.

Lemma steady_state_sequence_witness :
  (Go.min_int <= index (ps (fake.fresh fake.second_fails)) <= Go.max_int) /\
  (Forall (fun s => match s with
                    | StepSend numPartitions => numPartitions <= Go.max_int
                    | StepRefresh => True
                    end) [StepSend 2; StepRefresh; StepSend (-4); StepSend 1]) /\
  (exists (w' : World fake.Script) (evs : list Event),
     steps [StepSend 2; StepRefresh; StepSend (-4); StepSend 1]
       (fake.fresh fake.second_fails) = Returned tt w' /\
     trace w' = trace (fake.fresh fake.second_fails) ++ evs /\
     length (sent evs)
       = Z.to_nat (turns_of [StepSend 2; StepRefresh; StepSend (-4); StepSend 1]) /\
     index (ps w')
       = Go.int (index (ps (fake.fresh fake.second_fails))
                 + turns_of [StepSend 2; StepRefresh; StepSend (-4); StepSend 1])).
Proof.
  assert (Hyp1 : Go.min_int <= index (ps (fake.fresh fake.second_fails))
                 <= Go.max_int)
    by (split; by vm_compute).
  assert (Hyp2 : Forall (fun s => match s with
                    | StepSend numPartitions => numPartitions <= Go.max_int
                    | StepRefresh => True
                    end) [StepSend 2; StepRefresh; StepSend (-4); StepSend 1])
    by (repeat constructor; by vm_compute).
  split; [exact Hyp1|].
  split; [exact Hyp2|].
  exact (steady_state_sequence
           [StepSend 2; StepRefresh; StepSend (-4); StepSend 1]
           (fake.fresh fake.second_fails) Hyp1 Hyp2).
Defined.

Lemma Send_calls_shape_witness :
  (3 <= Go.max_int) /\
  (exists (w' : World (journal.Journal fake.Script)) (cs : list Call),
     Send 3 (journal.fresh fake.second_fails) = Returned tt w' /\
     Calls (env (journal.fresh fake.second_fails)) cs (env w') /\
     length cs = (3 * Z.to_nat 3)%nat /\
     length (reads_of cs) = (2 * Z.to_nat 3)%nat /\
     length (sends_of cs) = Z.to_nat 3 /\
     (forall (topic : string) (err : Go.error),
        CRefreshMetadata topic err ∉ cs) /\
     (forall err : Go.error, CClose err ∉ cs) /\
     (forall err : Go.error, CNewSyncProducerFromClient err ∉ cs)).
Proof.
  assert (Hyp1 : 3 <= Go.max_int)
    by (repeat split; by vm_compute).
  split; [exact Hyp1|].
  exact (Send_calls_shape 3 (journal.fresh fake.second_fails) Hyp1).
Defined.

Lemma Send_untouched_vectors_witness :
  (3 <= Go.max_int) /\
  (exists (w' : World (journal.Journal fake.Script)) (cs : list Call),
     Send 3 (journal.fresh fake.all_succeed) = Returned tt w' /\
     Calls (env (journal.fresh fake.all_succeed)) cs (env w') /\
     ((forall (msg : sarama.ProducerMessage) (err : Go.error),
         (msg, err) ∈ sends_of cs -> err = None) ->
      recordsProducedFailed (metrics w') = recordsProducedFailed (metrics (journal.fresh fake.all_succeed))) /\
     ((forall (msg : sarama.ProducerMessage) (err : Go.error),
         (msg, err) ∈ sends_of cs -> err <> None) ->
      recordsProducedLatency (metrics w') = recordsProducedLatency (metrics (journal.fresh fake.all_succeed)))).
Proof.
  assert (Hyp1 : 3 <= Go.max_int)
    by (repeat split; by vm_compute).
  split; [exact Hyp1|].
  exact (Send_untouched_vectors 3 (journal.fresh fake.all_succeed) Hyp1).
Defined.

Lemma Send_twice_sequence_witness :
  (Go.min_int <= index (ps (journal.fresh fake.all_succeed))) /\
  (0 <= 1 <= Go.max_int) /\
  (0 <= 2 <= Go.max_int) /\
  (index (ps (journal.fresh fake.all_succeed)) + 1 + 2 <= Go.max_int) /\
  (exists (w1 w2 : World (journal.Journal fake.Script)) (cs1 cs2 : list Call),
     Send 1 (journal.fresh fake.all_succeed) = Returned tt w1 /\
     Send 2 w1 = Returned tt w2 /\
     Calls (env (journal.fresh fake.all_succeed)) cs1 (env w1) /\
     Calls (env w1) cs2 (env w2) /\
     length (sends_of (cs1 ++ cs2)) = Z.to_nat (1 + 2) /\
     forall (k : nat) (msg : sarama.ProducerMessage) (err : Go.error),
       sends_of (cs1 ++ cs2) !! k = Some (msg, err) ->
       exists ts : Z,
         sarama.Value msg =
         Some (Json {| ProducerID := config.ClientID (canaryConfig (ps (journal.fresh fake.all_succeed)));
                       MessageID := index (ps (journal.fresh fake.all_succeed)) + Z.of_nat k + 1;
                       Timestamp := ts |})).
Proof.
  assert (Hyp1 : Go.min_int <= index (ps (journal.fresh fake.all_succeed)))
    by (repeat split; by vm_compute).
  assert (Hyp2 : 0 <= 1 <= Go.max_int)
    by (repeat split; by vm_compute).
  assert (Hyp3 : 0 <= 2 <= Go.max_int)
    by (repeat split; by vm_compute).
  assert (Hyp4 : index (ps (journal.fresh fake.all_succeed)) + 1 + 2 <= Go.max_int)
    by (repeat split; by vm_compute).
  split; [exact Hyp1|].
  split; [exact Hyp2|].
  split; [exact Hyp3|].
  split; [exact Hyp4|].
  exact (Send_twice_sequence 1 2 (journal.fresh fake.all_succeed) Hyp1 Hyp2 Hyp3 Hyp4).
Defined.
